(** * TFM-hook: the webhook handler of [index.js]

    A shallow embedding of [index.js] (signature verification, repository
    pulls, Docker service restarts, the [/hook/refresh] route) and the
    properties of its authentication and orchestration pipeline.

    Conventions of the embedding:
    - a JavaScript string is the list of its UTF-16 code units;
    - an [async] function is a computation in a state-and-exception monad:
      the state carries the host (file system, processes), the commands handed
      to [child_process.exec] so far and the console; an exception is a thrown
      value or a rejected promise.  One request is run at a time, so every
      [await] is a sequencing point and nothing else;
    - the host itself (what is on disk, what a shell command does, the HMAC
      of Node's [crypto]) is a parameter, the class [Host];
    - console lines are kept without their timestamp. *)

From Stdlib Require Import String Ascii DecimalString NArith Bool Lia Arith List.
Import ListNotations.
Local Open Scope N_scope.

(** ** JavaScript strings *)

Definition jsstring := list N.

(** A string literal of the source. *)
Definition lit (s : string) : jsstring :=
  map N_of_ascii (list_ascii_of_string s).

Definition dquote : jsstring := [34].

Fixpoint str_eqb (a b : jsstring) : bool :=
  match a, b with
  | [], [] => true
  | x :: a', y :: b' => (x =? y) && str_eqb a' b'
  | _, _ => false
  end.

(** [`${v}`] for a value that is a string or [undefined]. *)
Definition tmpl (v : option jsstring) : jsstring :=
  match v with
  | Some s => s
  | None => lit "undefined"
  end.

(** Truthiness of a value that is a string or [undefined]. *)
Definition truthy (v : option jsstring) : bool :=
  match v with
  | Some (_ :: _) => true
  | _ => false
  end.

(** [s.substring(0, n)] *)
Definition substring0 (n : nat) (s : jsstring) : jsstring := firstn n s.

(** White space and line terminators, as [String.prototype.trim] strips them. *)
Definition isWhiteSpace (u : N) : bool :=
  ((0x09 <=? u) && (u <=? 0x0D)) || (u =? 0x20) || (u =? 0xA0) || (u =? 0x1680)
  || ((0x2000 <=? u) && (u <=? 0x200A)) || (u =? 0x2028) || (u =? 0x2029)
  || (u =? 0x202F) || (u =? 0x205F) || (u =? 0x3000) || (u =? 0xFEFF).

Fixpoint trimStart (s : jsstring) : jsstring :=
  match s with
  | u :: t => if isWhiteSpace u then trimStart t else s
  | [] => []
  end.

Definition trim (s : jsstring) : jsstring :=
  rev (trimStart (rev (trimStart s))).

(** ** Buffers: [Buffer.from(string)] is the UTF-8 encoding *)

Definition isHighSurrogate (u : N) : bool := (0xD800 <=? u) && (u <? 0xDC00).
Definition isLowSurrogate (u : N) : bool := (0xDC00 <=? u) && (u <? 0xE000).
Definition replacement : list N := [0xEF; 0xBF; 0xBD].
Definition cont (x : N) : N := N.lor 0x80 (N.land x 0x3F).

Fixpoint Buffer_from (s : jsstring) : list N :=
  match s with
  | [] => []
  | u :: t =>
      if u <? 0x80 then u :: Buffer_from t
      else if u <? 0x800 then
        N.lor 0xC0 (N.shiftr u 6) :: cont u :: Buffer_from t
      else if isHighSurrogate u then
        match t with
        | v :: t' =>
            if isLowSurrogate v then
              let c := 0x10000 + N.shiftl (u - 0xD800) 10 + (v - 0xDC00) in
              N.lor 0xF0 (N.shiftr c 18) :: cont (N.shiftr c 12)
                :: cont (N.shiftr c 6) :: cont c :: Buffer_from t'
            else replacement ++ Buffer_from t
        | [] => replacement
        end
      else if isLowSurrogate u then replacement ++ Buffer_from t
      else
        N.lor 0xE0 (N.shiftr u 12) :: cont (N.shiftr u 6) :: cont u
          :: Buffer_from t
  end.

(** ** Data of the program *)

(** One element of [config.repositories]: an object [{name, path, branch}]
    whose keys may be missing, or [null] (what [JSON.parse] can also give). *)
Record RepoConfig := {
  name : option jsstring;
  path : option jsstring;
  branch : option jsstring
}.

Inductive RepoEntry :=
| JNull
| JObject (r : RepoConfig).

Definition is_object (e : RepoEntry) : Prop :=
  match e with
  | JObject _ => True
  | JNull => False
  end.

Definition entry_name (e : RepoEntry) : option jsstring :=
  match e with
  | JObject r => name r
  | JNull => None
  end.

(** The [config] object. *)
Record Config := {
  secret : jsstring;
  repositories : list RepoEntry;
  dockerServices : list jsstring;
  logLevel : jsstring
}.

Definition with_repositories (c : Config) (l : list RepoEntry) : Config :=
  {| secret := secret c; repositories := l;
     dockerServices := dockerServices c; logLevel := logLevel c |}.

(** Values that are thrown, or that reject a promise. *)
Inductive JSError :=
| Error (message : jsstring)
| TypeError (message : jsstring)
| RangeError (message : jsstring)
| ExecRejection (error stdout stderr : jsstring).

(** [error.message] and [error.stderr]: the object with which [execAsync]
    rejects has the keys [error], [stdout] and [stderr], and no [message]. *)
Definition message_of (e : JSError) : option jsstring :=
  match e with
  | Error m | TypeError m | RangeError m => Some m
  | ExecRejection _ _ _ => None
  end.

Definition stderr_of (e : JSError) : option jsstring :=
  match e with
  | ExecRejection _ _ err => Some err
  | _ => None
  end.

(** What the callback of [child_process.exec] receives. *)
Record ExecResult := {
  exec_error : option jsstring;
  exec_stdout : jsstring;
  exec_stderr : jsstring
}.

Inductive FileKind := Directory | RegularFile.

Inductive Level := INFO | ERROR | DEBUG.

(** The [results] object of [handleWebhook] and its entries. *)
Record RepoOutcome := { out_name : option jsstring; out_success : bool }.
Record ServiceOutcome := { svc_success : bool }.
Record Results := {
  res_repositories : list RepoOutcome;
  res_services : list ServiceOutcome;
  res_success : bool
}.

(** The JSON bodies the route sends. *)
Inductive ResponseBody :=
| ErrorOnly (error : jsstring)
| ErrorMessage (error : jsstring) (message : option jsstring)
| ResultBody (message : jsstring) (results : Results).

Record Response := { status : N; body : ResponseBody }.

Inductive Completion (A : Type) :=
| Return (a : A)
| Throw (e : JSError).
Arguments Return {A} a.
Arguments Throw {A} e.

(** ** The host *)

(** What the program takes from its surroundings: the file system
    ([fs_stat w p] is the kind of what path [p] resolves to), the shell
    ([child_process_exec w c] runs command [c]), the keyed digest
    [crypto.createHmac('sha256', key).update(payload).digest('hex')], and the
    values that [req.body] can hold with [JSON.stringify], which on such a
    value returns a string, returns [undefined] (for [undefined]) or throws
    (the stack overflows on a deeply nested value). *)
Class Host := {
  World : Type;
  fs_stat : World -> jsstring -> option FileKind;
  child_process_exec : World -> jsstring -> ExecResult * World;
  createHmac_sha256_hex : jsstring -> jsstring -> jsstring;
  JSON : Type;
  JSON_stringify : JSON -> Completion (option jsstring)
}.

(** ** Node's [crypto]: HMAC-SHA-256 (FIPS 180-4, RFC 2104)

    The program only names the digest; this is the function a real host
    computes, used to run the program on concrete requests. *)
Module Crypto.

Definition add32 (x y : N) : N := (x + y) mod 2 ^ 32.
Definition rotr (n x : N) : N :=
  N.lor (N.shiftr x n) (N.shiftl x (32 - n) mod 2 ^ 32).
Definition not32 (x : N) : N := N.lxor x (2 ^ 32 - 1).
Definition Ch (x y z : N) : N := N.lxor (N.land x y) (N.land (not32 x) z).
Definition Maj (x y z : N) : N :=
  N.lxor (N.lxor (N.land x y) (N.land x z)) (N.land y z).
Definition bsig0 (x : N) : N :=
  N.lxor (N.lxor (rotr 2 x) (rotr 13 x)) (rotr 22 x).
Definition bsig1 (x : N) : N :=
  N.lxor (N.lxor (rotr 6 x) (rotr 11 x)) (rotr 25 x).
Definition ssig0 (x : N) : N :=
  N.lxor (N.lxor (rotr 7 x) (rotr 18 x)) (N.shiftr x 3).
Definition ssig1 (x : N) : N :=
  N.lxor (N.lxor (rotr 17 x) (rotr 19 x)) (N.shiftr x 10).

(** The round constants are the first 32 fractional bits of the cube
    roots of the first 64 primes, the initial hash value those of the
    square roots of the first 8. *)
Definition is_prime (n : N) : bool :=
  (2 <=? n) &&
  forallb (fun d => negb (n mod N.of_nat d =? 0)) (seq 2 (N.to_nat n - 2)).

Definition primes64 : list N :=
  firstn 64 (filter is_prime (map N.of_nat (seq 2 310))).

Definition icbrt (n : N) : N :=
  fold_left
    (fun r b => let r' := r + 2 ^ N.of_nat b in
                if r' * r' * r' <=? n then r' else r)
    (rev (seq 0 40)) 0.

Definition K : list N :=
  Eval vm_compute in map (fun p => icbrt (p * 2 ^ 96) mod 2 ^ 32) primes64.

Definition H0 : list N :=
  Eval vm_compute in
    map (fun p => N.sqrt (p * 2 ^ 64) mod 2 ^ 32) (firstn 8 primes64).

Definition be32 (x : N) : list N :=
  [N.shiftr x 24 mod 256; N.shiftr x 16 mod 256; N.shiftr x 8 mod 256;
   x mod 256].

Definition be64 (x : N) : list N := be32 (N.shiftr x 32) ++ be32 (x mod 2 ^ 32).

Definition pad (msg : list N) : list N :=
  let len := length msg in
  let zeros := ((64 - (len + 9) mod 64) mod 64)%nat in
  msg ++ [0x80] ++ repeat 0 zeros ++ be64 (8 * N.of_nat len).

Fixpoint words (fuel : nat) (bs : list N) : list N :=
  match fuel, bs with
  | S fuel', a :: b :: c :: d :: rest =>
      (N.shiftl a 24 + N.shiftl b 16 + N.shiftl c 8 + d) :: words fuel' rest
  | _, _ => []
  end.

(** The message schedule is grown newest word first. *)
Definition extend (ws : list N) : list N :=
  add32 (add32 (ssig1 (nth 1 ws 0)) (nth 6 ws 0))
        (add32 (ssig0 (nth 14 ws 0)) (nth 15 ws 0)) :: ws.

Definition schedule (block : list N) : list N :=
  rev (Nat.iter 48 extend (rev block)).

Definition round (st : list N) (kw : N * N) : list N :=
  match st with
  | [a; b; c; d; e; f; g; h] =>
      let t1 := add32 (add32 (add32 h (bsig1 e)) (Ch e f g))
                      (add32 (fst kw) (snd kw)) in
      let t2 := add32 (bsig0 a) (Maj a b c) in
      [add32 t1 t2; a; b; c; add32 d t1; e; f; g]
  | _ => st
  end.

Definition compress (h block : list N) : list N :=
  map (fun p => add32 (fst p) (snd p))
      (combine h (fold_left round (combine K (schedule block)) h)).

Fixpoint blocks (fuel : nat) (ws : list N) : list (list N) :=
  match fuel, ws with
  | S fuel', _ :: _ => firstn 16 ws :: blocks fuel' (skipn 16 ws)
  | _, _ => []
  end.

Definition sha256 (msg : list N) : list N :=
  let ws := words (length msg + 72) (pad msg) in
  flat_map be32 (fold_left compress (blocks (length ws) ws) H0).

Definition hmac_sha256 (key msg : list N) : list N :=
  let k0 := if (64 <? length key)%nat then sha256 key else key in
  let k := k0 ++ repeat 0 (64 - length k0) in
  sha256 (map (N.lxor 0x5c) k ++ sha256 (map (N.lxor 0x36) k ++ msg)).

Definition hexdigit (n : N) : N := if n <? 10 then 48 + n else 87 + n.

Definition hex (bs : list N) : jsstring :=
  flat_map (fun b => [hexdigit (b / 16); hexdigit (b mod 16)]) bs.

(** [crypto.createHmac('sha256', key).update(payload).digest('hex')] *)
Definition createHmac_hex (key payload : jsstring) : jsstring :=
  hex (hmac_sha256 (Buffer_from key) (Buffer_from payload)).

End Crypto.

(** ** A small concrete host

  A fixed file tree and a list of commands that fail; commands do not
  change the tree.  A request body is a parsed value, kept as its
  serialisation, or a value too deeply nested to be serialised, or
  [undefined]. *)
Module Sim.

Inductive body :=
| Parsed (serialised : jsstring)
| Deep
| Absent.

Definition stringify (b : body) : Completion (option jsstring) :=
  match b with
  | Parsed s => Return (Some s)
  | Deep => Throw (RangeError (lit "Maximum call stack size exceeded"))
  | Absent => Return None
  end.

Record world := {
  files : list (jsstring * FileKind);
  failing : list jsstring
}.

Fixpoint lookup (fs : list (jsstring * FileKind)) (p : jsstring)
  : option FileKind :=
  match fs with
  | [] => None
  | (q, k) :: fs' => if str_eqb q p then Some k else lookup fs' p
  end.

Definition stat (w : world) (p : jsstring) : option FileKind :=
  lookup (files w) p.

Definition exec (w : world) (c : jsstring) : ExecResult * world :=
  if existsb (str_eqb c) (failing w) then
    ({| exec_error := Some (lit "Command failed: " ++ c);
        exec_stdout := [];
        exec_stderr := lit "exit status 1" |}, w)
  else
    ({| exec_error := None;
        exec_stdout := lit "done" ++ [10];
        exec_stderr := [] |}, w).

#[export] Instance host : Host := {|
  World := world;
  fs_stat := stat;
  child_process_exec := exec;
  createHmac_sha256_hex := Crypto.createHmac_hex;
  JSON := body;
  JSON_stringify := stringify
|}.

End Sim.

(** ** The program *)

Section Hook.

Context {host : Host}.

(** The host, the commands passed to [exec] so far (oldest first) and the
    lines written to the console. *)
Record State := {
  world : World;
  invoked : list jsstring;
  console : list (Level * jsstring)
}.

Definition M (A : Type) : Type := State -> Completion A * State.

Definition ret {A : Type} (a : A) : M A := fun st => (Return a, st).

Definition throw {A : Type} (e : JSError) : M A := fun st => (Throw e, st).

Definition bind {A B : Type} (m : M A) (k : A -> M B) : M B :=
  fun st =>
    match m st with
    | (Return a, st') => k a st'
    | (Throw e, st') => (Throw e, st')
    end.

(** A call that completes without touching the state. *)
Definition lift {A : Type} (c : Completion A) : M A := fun st => (c, st).

(** [try { m } catch (error) { h error }] *)
Definition try_catch {A : Type} (m : M A) (h : JSError -> M A) : M A :=
  fun st =>
    match m st with
    | (Return a, st') => (Return a, st')
    | (Throw e, st') => h e st'
    end.

Local Notation "x <- m ;; k" := (bind m (fun x => k))
  (at level 61, m at next level, right associativity).
Local Notation "m ;; k" := (bind m (fun _ => k))
  (at level 61, right associativity).

(** [for (const x of xs) { ... }], threading the locals the body updates. *)
Fixpoint forOf {A S : Type} (xs : list A) (step : A -> S -> M S) (s : S)
  : M S :=
  match xs with
  | [] => ret s
  | x :: xs' => s' <- step x s ;; forOf xs' step s'
  end.

Definition console_write (l : Level) (line : jsstring) : M unit :=
  fun st =>
    (Return tt,
     {| world := world st; invoked := invoked st;
        console := console st ++ [(l, line)] |}).

(** [fs.existsSync(p)]: true when [p] resolves to anything at all, false for
    a path that is not a string. *)
Definition existsSync (w : World) (p : option jsstring) : bool :=
  match p with
  | Some q => match fs_stat w q with Some _ => true | None => false end
  | None => false
  end.

Definition fs_existsSync (p : option jsstring) : M bool :=
  fun st => (Return (existsSync (world st) p), st).

(** [execAsync(command)]: the promise resolves with [{stdout, stderr}] or
    rejects with [{error, stdout, stderr}]. *)
Definition execAsync (command : jsstring) : M (jsstring * jsstring) :=
  fun st =>
    let (r, w') := child_process_exec (world st) command in
    let st' := {| world := w'; invoked := invoked st ++ [command];
                  console := console st |} in
    match exec_error r with
    | Some error =>
        (Throw (ExecRejection error (exec_stdout r) (exec_stderr r)), st')
    | None => (Return (exec_stdout r, exec_stderr r), st')
    end.

(** [crypto.timingSafeEqual(a, b)] on two buffers. *)
Definition timingSafeEqual (a b : list N) : M bool :=
  if (length a =? length b)%nat then ret (str_eqb a b)
  else throw (RangeError (lit "Input buffers must have the same byte length")).

Record Request := {
  x_hub_signature_256 : option jsstring;
  req_body : JSON
}.

Section Program.

Variable config : Config.

Definition log_info (message : jsstring) : M unit :=
  if str_eqb (logLevel config) (lit "info")
     || str_eqb (logLevel config) (lit "debug")
  then console_write INFO message
  else ret tt.

Definition log_error (message : jsstring) : M unit :=
  console_write ERROR message.

Definition log_debug (message : jsstring) : M unit :=
  if str_eqb (logLevel config) (lit "debug") then console_write DEBUG message
  else ret tt.

Definition verifySignature (payload signature : jsstring) : M bool :=
  match secret config with
  | [] =>
      log_debug
        (lit "No webhook secret configured, skipping signature verification") ;;
      ret true
  | _ :: _ =>
      let digest :=
        lit "sha256=" ++ createHmac_sha256_hex (secret config) payload in
      timingSafeEqual (Buffer_from signature) (Buffer_from digest)
  end.

Definition pullCommand (repoPath : option jsstring) (branch : jsstring)
  : jsstring :=
  lit "cd " ++ dquote ++ tmpl repoPath ++ dquote
    ++ lit " && git pull origin " ++ branch.

Definition pullRepository (repoConfig : RepoEntry) : M bool :=
  match repoConfig with
  | JNull =>
      throw (TypeError (lit
        "Cannot destructure property 'name' of 'repoConfig' as it is null."))
  | JObject r =>
      let name := name r in
      let repoPath := path r in
      let branch := match branch r with Some b => b | None => lit "main" end in
      try_catch
        (log_info (lit "Pulling repository: " ++ tmpl name ++ lit " at "
                     ++ tmpl repoPath) ;;
         found <- fs_existsSync repoPath ;;
         (if negb found then
            throw (Error (lit "Repository path does not exist: "
                            ++ tmpl repoPath))
          else ret tt) ;;
         result <- execAsync (pullCommand repoPath branch) ;;
         log_info (lit "Successfully pulled " ++ tmpl name ++ lit ": "
                     ++ trim (fst result)) ;;
         ret true)
        (fun error =>
           log_error (lit "Failed to pull repository " ++ tmpl name ++ lit ": "
                        ++ tmpl (message_of error)) ;;
           (if truthy (stderr_of error) then
              log_error (lit "Git error output: " ++ tmpl (stderr_of error))
            else ret tt) ;;
           ret false)
  end.

Definition restartCommand (service : jsstring) : jsstring :=
  lit "docker restart " ++ service.

Definition restartStep (service : jsstring) (_ : unit) : M unit :=
  log_info (lit "Restarting Docker service: " ++ service) ;;
  result <- execAsync (restartCommand service) ;;
  log_info (lit "Successfully restarted " ++ service ++ lit ": "
              ++ trim (fst result)).

Definition restartDockerServices (services : list jsstring) : M bool :=
  match services with
  | [] =>
      log_debug (lit "No Docker services configured for restart") ;;
      ret true
  | _ :: _ =>
      try_catch
        (forOf services restartStep tt ;;
         ret true)
        (fun error =>
           log_error (lit "Failed to restart Docker services: "
                        ++ tmpl (message_of error)) ;;
           (if truthy (stderr_of error) then
              log_error (lit "Docker error output: " ++ tmpl (stderr_of error))
            else ret tt) ;;
           ret false)
  end.

(** [repo.name] *)
Definition get_name (repo : RepoEntry) : M (option jsstring) :=
  match repo with
  | JNull =>
      throw (TypeError (lit "Cannot read properties of null (reading 'name')"))
  | JObject r => ret (name r)
  end.

Definition emptyResults : Results :=
  {| res_repositories := []; res_services := []; res_success := true |}.

(** The body of the loop over [config.repositories]. *)
Definition pullStep (repo : RepoEntry) (results : Results) : M Results :=
  success <- pullRepository repo ;;
  name <- get_name repo ;;
  ret {| res_repositories :=
           res_repositories results
             ++ [{| out_name := name; out_success := success |}];
         res_services := res_services results;
         res_success := if negb success then false else res_success results |}.

Definition handleWebhook (payload : JSON) : M Results :=
  log_info (lit "Processing webhook payload") ;;
  results <- forOf (repositories config) pullStep emptyResults ;;
  servicesSuccess <- restartDockerServices (dockerServices config) ;;
  ret {| res_repositories := res_repositories results;
         res_services :=
           res_services results ++ [{| svc_success := servicesSuccess |}];
         res_success :=
           if negb servicesSuccess then false else res_success results |}.

Definition decimal (n : N) : jsstring :=
  lit (NilEmpty.string_of_uint (N.to_uint n)).

(** The handler of [POST /hook/refresh].  A [Throw] is the handler's promise
    rejecting before any response is sent.  [JSON.stringify(req.body)] and
    [payload.substring(0, 200)] are evaluated outside the [try]: the first
    may throw, and the second throws when the payload is [undefined], also
    when the debug line it is meant for would not be written. *)
Definition hook_refresh (req : Request) : M Response :=
  let signature := x_hub_signature_256 req in
  payload <- lift (JSON_stringify (req_body req)) ;;
  log_info (lit "Received webhook request") ;;
  log_debug (lit "Signature: " ++ tmpl signature) ;;
  match payload with
  | None =>
      throw (TypeError (lit
        "Cannot read properties of undefined (reading 'substring')"))
  | Some payload =>
      log_debug (lit "Payload preview: " ++ substring0 200 payload
                   ++ lit "...") ;;
      invalid <- match signature with
                 | Some (u :: s) =>
                     ok <- verifySignature payload (u :: s) ;;
                     ret (negb ok)
                 | _ => ret false
                 end ;;
      if invalid : bool then
        log_error (lit "Invalid webhook signature") ;;
        ret {| status := 401; body := ErrorOnly (lit "Invalid signature") |}
      else
        try_catch
          (results <- handleWebhook (req_body req) ;;
           let statusCode := if res_success results then 200 else 500 in
           log_info (lit "Webhook processing completed with status: "
                       ++ decimal statusCode) ;;
           ret {| status := statusCode;
                  body :=
                    ResultBody
                      (if res_success results
                       then lit "Webhook processed successfully"
                       else lit "Webhook processed with errors")
                      results |})
          (fun error =>
             log_error (lit "Webhook processing failed: "
                          ++ tmpl (message_of error)) ;;
             ret {| status := 500;
                    body := ErrorMessage (lit "Internal server error")
                                         (message_of error) |})
  end.

End Program.

(** ** Vocabulary of the properties *)

(** Two states with the same host and the same commands run so far; they may
    differ in what was written to the console. *)
Definition agree (st1 st2 : State) : Prop :=
  world st1 = world st2 /\ invoked st1 = invoked st2.

(** A computation whose completion and whose effect on the host do not
    depend on the console. *)
Definition blind {A : Type} (m : M A) : Prop :=
  forall st1 st2, agree st1 st2 ->
    fst (m st1) = fst (m st2) /\ agree (snd (m st1)) (snd (m st2)).

(** A computation that neither touches the host nor throws. *)
Definition silent {A : Type} (m : M A) : Prop :=
  forall st, exists a st', m st = (Return a, st') /\ agree st st'.

(** A computation that never throws. *)
Definition total {A : Type} (m : M A) : Prop :=
  forall st, exists a st', m st = (Return a, st').

(** [pull_chain config st repos entries st']: starting in [st],
    [pullRepository] is called on every element of [repos] in order, each
    call in the state the one before it left; every call returns, [entries]
    holds one [{name, success}] per call, and [st'] is the last state. *)
Inductive pull_chain (config : Config)
  : State -> list RepoEntry -> list RepoOutcome -> State -> Prop :=
| pull_chain_nil st : pull_chain config st [] [] st
| pull_chain_cons st repo success st1 repos entries st' :
    pullRepository config repo st = (Return success, st1) ->
    pull_chain config st1 repos entries st' ->
    pull_chain config st (repo :: repos)
      ({| out_name := entry_name repo; out_success := success |} :: entries)
      st'.

(** The host after the commands [cs] have run in order, when each of them
    succeeds. *)
Fixpoint runAll (w : World) (cs : list jsstring) : option World :=
  match cs with
  | [] => Some w
  | c :: cs' =>
      let (r, w') := child_process_exec w c in
      match exec_error r with
      | None => runAll w' cs'
      | Some _ => None
      end
  end.

(** The string a request's signature is compared with. *)
Definition expected_signature (config : Config) (payload : jsstring)
  : jsstring :=
  lit "sha256=" ++ createHmac_sha256_hex (secret config) payload.

(** The three kinds of response of [POST /hook/refresh]. *)
Definition unauthorized : Response :=
  {| status := 401; body := ErrorOnly (lit "Invalid signature") |}.

Definition processed (results : Results) : Response :=
  {| status := if res_success results then 200 else 500;
     body := ResultBody
               (if res_success results
                then lit "Webhook processed successfully"
                else lit "Webhook processed with errors")
               results |}.

Definition internal_error (e : JSError) : Response :=
  {| status := 500;
     body := ErrorMessage (lit "Internal server error") (message_of e) |}.

(** Whether a path resolves to a directory. *)
Definition is_directory (w : World) (p : option jsstring) : bool :=
  match p with
  | Some q =>
      match fs_stat w q with Some Directory => true | _ => false end
  | None => false
  end.

(** ** Further vocabulary *)

(** [subsequence l l']: [l] is [l'] with some of its elements left out. *)
Inductive subsequence {A : Type} : list A -> list A -> Prop :=
| subsequence_nil : subsequence [] []
| subsequence_skip x l l' : subsequence l l' -> subsequence l (x :: l')
| subsequence_take x l l' : subsequence l l' -> subsequence (x :: l) (x :: l').

(** A string of ASCII characters only. *)
Definition isASCII (s : jsstring) : bool := forallb (fun u => u <? 0x80) s.

(** The command [pullRepository] builds for a repository object. *)
Definition pull_command_of (r : RepoConfig) : jsstring :=
  pullCommand (path r)
    (match branch r with Some b => b | None => lit "main" end).

(** The host after every repository of [rs] has been found on disk and
    pulled with success, in order. *)
Fixpoint runPulls (w : World) (rs : list RepoConfig) : option World :=
  match rs with
  | [] => Some w
  | r :: rs' =>
      if existsSync w (path r) then
        let (x, w') := child_process_exec w (pull_command_of r) in
        match exec_error x with
        | None => runPulls w' rs'
        | Some _ => None
        end
      else None
  end.

(** The levels that [config.logLevel] lets through. *)
Definition enabled (config : Config) (l : Level) : bool :=
  match l with
  | INFO =>
      str_eqb (logLevel config) (lit "info")
      || str_eqb (logLevel config) (lit "debug")
  | ERROR => true
  | DEBUG => str_eqb (logLevel config) (lit "debug")
  end.

(** A computation that only appends to the console, and only lines whose
    level satisfies [P]. *)
Definition writes {A : Type} (P : Level -> Prop) (m : M A) : Prop :=
  forall st, exists lines,
    console (snd (m st)) = console st ++ lines /\
    Forall (fun l => P (fst l)) lines.

(** Two computations that complete alike and act alike on the host, from
    states that agree. *)
Definition alike {A : Type} (m1 m2 : M A) : Prop :=
  forall st1 st2, agree st1 st2 ->
    fst (m1 st1) = fst (m2 st2) /\ agree (snd (m1 st1)) (snd (m2 st2)).

(** Two configurations that differ at most in [logLevel]. *)
Definition same_but_logLevel (c1 c2 : Config) : Prop :=
  secret c1 = secret c2 /\
  repositories c1 = repositories c2 /\
  dockerServices c1 = dockerServices c2.

(** ** [GET /health]

    The body of the response; [now] is [new Date().toISOString()]. *)
Record HealthConfig := {
  health_repositories : nat;
  health_dockerServices : nat;
  hasSecret : bool
}.

Record Health := {
  health_status : jsstring;
  timestamp : jsstring;
  health_config : HealthConfig
}.

Definition get_health (config : Config) (now : jsstring) : Health :=
  {| health_status := lit "healthy";
     timestamp := now;
     health_config :=
       {| health_repositories := length (repositories config);
          health_dockerServices := length (dockerServices config);
          hasSecret := match secret config with [] => false | _ :: _ => true end
       |} |}.

End Hook.

Arguments lit : simpl never.

(** ** A concrete deployment on the host [Sim] *)
Module Example.

#[local] Existing Instance Sim.host.

Definition app : RepoConfig :=
  {| name := Some (lit "app"); path := Some (lit "/srv/app"); branch := None |}.

Definition gone : RepoConfig :=
  {| name := Some (lit "gone"); path := Some (lit "/srv/gone");
     branch := Some (lit "develop") |}.

(** A repository whose configured path is a regular file. *)
Definition notes : RepoConfig :=
  {| name := Some (lit "notes"); path := Some (lit "/srv/notes.txt");
     branch := None |}.

Definition config : Config :=
  {| secret := lit "s3cr3t";
     repositories := [JObject app];
     dockerServices := [lit "web"];
     logLevel := lit "info" |}.

Definition config_no_secret : Config :=
  {| secret := [];
     repositories := [JObject gone; JObject app];
     dockerServices := [lit "web"; lit "api"; lit "db"];
     logLevel := lit "debug" |}.

Definition disk : Sim.world :=
  {| Sim.files :=
       [(lit "/srv/app", Directory); (lit "/srv/notes.txt", RegularFile)];
     Sim.failing :=
       [lit "docker restart api";
        lit "cd " ++ dquote ++ lit "/srv/notes.txt" ++ dquote
          ++ lit " && git pull origin main"] |}.

Definition st0 : State := {| world := disk; invoked := []; console := [] |}.

(** A request body and its serialisation. *)
Definition payload : jsstring := lit "{}".

Definition body : JSON := Sim.Parsed payload.

Definition unsigned_request : Request :=
  {| x_hub_signature_256 := None; req_body := body |}.

Definition short_signature : jsstring := lit "sha256=bad".

Definition wrong_signature : jsstring := lit "sha256=" ++ repeat 48 64%nat.

Definition good_signature : jsstring :=
  lit "sha256=" ++ Crypto.createHmac_hex (secret config) payload.

Definition request_with (signature : jsstring) : Request :=
  {| x_hub_signature_256 := Some signature; req_body := body |}.

(** Unsigned requests whose body cannot be serialised, or is [undefined]. *)
Definition deep_request : Request :=
  {| x_hub_signature_256 := None; req_body := Sim.Deep |}.

Definition absent_request : Request :=
  {| x_hub_signature_256 := None; req_body := Sim.Absent |}.

(** What [handleWebhook] returns for [config_no_secret] on [disk]. *)
Definition results_no_secret : Results :=
  {| res_repositories :=
       [{| out_name := Some (lit "gone"); out_success := false |};
        {| out_name := Some (lit "app"); out_success := true |}];
     res_services := [{| svc_success := false |}];
     res_success := false |}.

(** A deployment in which everything succeeds. *)
Definition config_ok : Config :=
  {| secret := lit "s3cr3t";
     repositories := map JObject [app];
     dockerServices := [lit "web"; lit "db"];
     logLevel := lit "error" |}.

Definition results_ok : Results :=
  {| res_repositories :=
       [{| out_name := Some (lit "app"); out_success := true |}];
     res_services := [{| svc_success := true |}];
     res_success := true |}.

(** A deployment none of whose repositories is on disk. *)
Definition config_gone : Config :=
  {| secret := [];
     repositories := map JObject [gone];
     dockerServices := [lit "web"];
     logLevel := lit "info" |}.

(** [config_ok] at another log level. *)
Definition config_ok_debug : Config :=
  {| secret := secret config_ok;
     repositories := repositories config_ok;
     dockerServices := dockerServices config_ok;
     logLevel := lit "debug" |}.

End Example.

(** * Properties *)

(** ** Strings and buffers *)

Lemma str_eqb_refl (s : jsstring) : str_eqb s s = true.
Proof.
  induction s as [|u s IH]; simpl; [reflexivity|].
  now rewrite N.eqb_refl.
Qed.

Lemma str_eqb_eq (a b : jsstring) : str_eqb a b = true <-> a = b.
Proof.
  split.
  - revert b; induction a as [|x a IH]; intros [|y b] H; simpl in H;
      try discriminate; [reflexivity|].
    apply andb_true_iff in H as [Hxy Hab].
    apply N.eqb_eq in Hxy. f_equal; auto.
  - intros ->. apply str_eqb_refl.
Qed.

Lemma str_eqb_neq (a b : jsstring) : str_eqb a b = false <-> a <> b.
Proof.
  rewrite <- str_eqb_eq. destruct (str_eqb a b); split; congruence.
Qed.

(** The UTF-8 encoding of a string has at least as many bytes as the string
    has code units. *)
Lemma Buffer_from_length (s : jsstring) :
  (length s <= length (Buffer_from s))%nat.
Proof.
  assert (H : forall n s, (length s <= n)%nat ->
                          (length s <= length (Buffer_from s))%nat).
  { clear s. induction n as [|n IH]; intros [|u t] Hn;
      cbn [Buffer_from length] in *; try lia.
    assert (Ht : (length t <= length (Buffer_from t))%nat) by (apply IH; lia).
    destruct (u <? 0x80); [cbn [length]; lia|].
    destruct (u <? 0x800); [cbn [length]; lia|].
    destruct (isHighSurrogate u).
    - destruct t as [|v t']; [cbn [length replacement]; lia|].
      destruct (isLowSurrogate v).
      + assert (Ht' : (length t' <= length (Buffer_from t'))%nat)
          by (apply IH; cbn [length] in Hn; lia).
        cbn [length]; lia.
      + rewrite length_app. cbn [length replacement] in *. lia.
    - destruct (isLowSurrogate u).
      + rewrite length_app. cbn [length replacement]. lia.
      + cbn [length]; lia. }
  apply (H (length s)). lia.
Qed.

(** A string of ASCII characters is its own encoding. *)
Lemma Buffer_from_ascii (s : jsstring) :
  Forall (fun u => u < 0x80) s -> Buffer_from s = s.
Proof.
  induction 1 as [|u t Hu _ IH]; cbn [Buffer_from]; [reflexivity|].
  apply N.ltb_lt in Hu. now rewrite Hu, IH.
Qed.

Section Properties.

Context {host : Host}.

Implicit Types (st : State) (config : Config).

(** ** The monad *)

Lemma agree_refl st : agree st st.
Proof. split; reflexivity. Qed.

Lemma agree_sym st1 st2 : agree st1 st2 -> agree st2 st1.
Proof. intros [Hw Hi]; split; congruence. Qed.

Lemma agree_trans st1 st2 st3 : agree st1 st2 -> agree st2 st3 -> agree st1 st3.
Proof. intros [Hw Hi] [Hw' Hi']; split; congruence. Qed.

Lemma bind_Return {A B : Type} (m : M A) (k : A -> M B) st a st' :
  m st = (Return a, st') -> bind m k st = k a st'.
Proof. intros E. unfold bind. now rewrite E. Qed.

Lemma bind_Throw {A B : Type} (m : M A) (k : A -> M B) st e st' :
  m st = (Throw e, st') -> bind m k st = (Throw e, st').
Proof. intros E. unfold bind. now rewrite E. Qed.

Lemma forOf_app {A S : Type} (xs ys : list A) (step : A -> S -> M S) (s : S) st :
  forOf (xs ++ ys) step s st = bind (forOf xs step s) (forOf ys step) st.
Proof.
  revert s st. induction xs as [|x xs IH]; intros s st; simpl.
  - reflexivity.
  - unfold bind in *. destruct (step x s st) as [[s1|e] st1].
    + apply IH.
    + reflexivity.
Qed.

Create HintDb hook.

(** *** Computations that only write to the console *)

Lemma silent_ret {A : Type} (a : A) : silent (ret a).
Proof. intros st. exists a, st. split; [reflexivity | apply agree_refl]. Qed.

Lemma silent_bind {A B : Type} (m : M A) (k : A -> M B) :
  silent m -> (forall a, silent (k a)) -> silent (bind m k).
Proof.
  intros Hm Hk st.
  destruct (Hm st) as (a & st1 & E1 & A1).
  destruct (Hk a st1) as (b & st2 & E2 & A2).
  exists b, st2. split.
  - now rewrite (bind_Return _ _ _ _ _ E1).
  - eapply agree_trans; eassumption.
Qed.

Lemma silent_if {A : Type} (c : bool) (m1 m2 : M A) :
  silent m1 -> silent m2 -> silent (if c then m1 else m2).
Proof. now destruct c. Qed.

Lemma silent_console_write (l : Level) (line : jsstring) :
  silent (console_write l line).
Proof. intros st. eexists tt, _. split; [reflexivity | split; reflexivity]. Qed.

Lemma silent_log_info config (message : jsstring) :
  silent (log_info config message).
Proof.
  unfold log_info. apply silent_if;
    [apply silent_console_write | apply silent_ret].
Qed.

Lemma silent_log_error (message : jsstring) : silent (log_error message).
Proof. apply silent_console_write. Qed.

Lemma silent_log_debug config (message : jsstring) :
  silent (log_debug config message).
Proof.
  unfold log_debug. apply silent_if;
    [apply silent_console_write | apply silent_ret].
Qed.

#[local] Hint Resolve silent_ret silent_bind silent_if silent_console_write
  silent_log_info silent_log_error silent_log_debug : hook.

(** Running a silent computation in front of a continuation. *)
Lemma silent_run {A B : Type} (m : M A) (k : A -> M B) st :
  silent m -> exists a st1, agree st st1 /\ bind m k st = k a st1.
Proof.
  intros Hm. destruct (Hm st) as (a & st1 & E & Ag).
  exists a, st1. split; [assumption | now apply bind_Return].
Qed.

(** *** Computations that never throw *)

Lemma silent_total {A : Type} (m : M A) : silent m -> total m.
Proof. intros H st. destruct (H st) as (a & st' & E & _). now exists a, st'. Qed.

Lemma total_ret {A : Type} (a : A) : total (ret a).
Proof. intros st. now exists a, st. Qed.

Lemma total_bind {A B : Type} (m : M A) (k : A -> M B) :
  total m -> (forall a, total (k a)) -> total (bind m k).
Proof.
  intros Hm Hk st.
  destruct (Hm st) as (a & st1 & E1).
  destruct (Hk a st1) as (b & st2 & E2).
  exists b, st2. now rewrite (bind_Return _ _ _ _ _ E1).
Qed.

Lemma total_try_catch {A : Type} (m : M A) (h : JSError -> M A) :
  (forall e, total (h e)) -> total (try_catch m h).
Proof.
  intros Hh st. unfold try_catch.
  destruct (m st) as [[a|e] st1].
  - now exists a, st1.
  - apply Hh.
Qed.

Lemma total_forOf {A S : Type} (xs : list A) (step : A -> S -> M S) :
  (forall x, In x xs -> forall s, total (step x s)) ->
  forall s, total (forOf xs step s).
Proof.
  induction xs as [|x xs IH]; intros Hstep s; simpl.
  - apply total_ret.
  - apply total_bind.
    + apply Hstep. now left.
    + intros s'. apply IH. intros y Hy. apply Hstep. now right.
Qed.

(** *** Computations that do not read the console *)

Lemma blind_ret {A : Type} (a : A) : blind (ret a).
Proof. intros st1 st2 Ag. now split. Qed.

Lemma blind_throw {A : Type} (e : JSError) : blind (@throw _ A e).
Proof. intros st1 st2 Ag. now split. Qed.

Lemma blind_bind {A B : Type} (m : M A) (k : A -> M B) :
  blind m -> (forall a, blind (k a)) -> blind (bind m k).
Proof.
  intros Hm Hk st1 st2 Ag. unfold bind.
  destruct (Hm st1 st2 Ag) as [Ef As].
  destruct (m st1) as [[a1|e1] s1], (m st2) as [[a2|e2] s2];
    simpl in Ef, As; try discriminate.
  - injection Ef as ->. now apply Hk.
  - injection Ef as ->. now split.
Qed.

Lemma blind_try_catch {A : Type} (m : M A) (h : JSError -> M A) :
  blind m -> (forall e, blind (h e)) -> blind (try_catch m h).
Proof.
  intros Hm Hh st1 st2 Ag. unfold try_catch.
  destruct (Hm st1 st2 Ag) as [Ef As].
  destruct (m st1) as [[a1|e1] s1], (m st2) as [[a2|e2] s2];
    simpl in Ef, As; try discriminate.
  - injection Ef as ->. now split.
  - injection Ef as ->. now apply Hh.
Qed.

Lemma blind_if {A : Type} (c : bool) (m1 m2 : M A) :
  blind m1 -> blind m2 -> blind (if c then m1 else m2).
Proof. now destruct c. Qed.

Lemma blind_console_write (l : Level) (line : jsstring) :
  blind (console_write l line).
Proof. intros st1 st2 Ag. split; [reflexivity | exact Ag]. Qed.

Lemma blind_log_info config (message : jsstring) :
  blind (log_info config message).
Proof.
  unfold log_info. apply blind_if; [apply blind_console_write | apply blind_ret].
Qed.

Lemma blind_log_error (message : jsstring) : blind (log_error message).
Proof. apply blind_console_write. Qed.

Lemma blind_fs_existsSync (p : option jsstring) : blind (fs_existsSync p).
Proof.
  intros st1 st2 [Hw Hi]. unfold fs_existsSync. simpl. rewrite Hw.
  split; [reflexivity | now split].
Qed.

Lemma blind_execAsync (command : jsstring) : blind (execAsync command).
Proof.
  intros st1 st2 [Hw Hi]. unfold execAsync. rewrite Hw, Hi.
  destruct (child_process_exec (world st2) command) as [r w'].
  destruct (exec_error r); simpl; (split; [reflexivity | now split]).
Qed.

#[local] Hint Resolve blind_ret blind_throw blind_bind blind_try_catch blind_if
  blind_console_write blind_log_info blind_log_error blind_fs_existsSync
  blind_execAsync : hook.

Lemma blind_pullRepository config (repo : RepoEntry) :
  blind (pullRepository config repo).
Proof. destruct repo; unfold pullRepository; auto 12 with hook. Qed.

Lemma total_if {A : Type} (c : bool) (m1 m2 : M A) :
  total m1 -> total m2 -> total (if c then m1 else m2).
Proof. now destruct c. Qed.

#[local] Hint Resolve total_ret total_bind total_if silent_total : hook.

(** Skip a silent computation at the head of the goal's computation. *)
Ltac skip_silent :=
  match goal with
  | |- context [bind ?m ?k ?st] =>
      let Hs := fresh "Hs" in
      assert (Hs : silent m) by auto with hook;
      let a := fresh "a" in
      let st1 := fresh "st" in
      let Ag := fresh "Ag" in
      let E := fresh "E" in
      destruct (silent_run m k st Hs) as (a & st1 & Ag & E);
      rewrite E; clear E Hs; cbv beta
  end.

(** ** [pullRepository] and the loop over the repositories *)

Lemma total_pullRepository config (r : RepoConfig) :
  total (pullRepository config (JObject r)).
Proof.
  unfold pullRepository. apply total_try_catch. intros error.
  auto 8 with hook.
Qed.

Lemma pullStep_Return config repo results st acc st1 :
  pullStep config repo results st = (Return acc, st1) ->
  exists success,
    pullRepository config repo st = (Return success, st1) /\
    acc = {| res_repositories :=
               res_repositories results
                 ++ [{| out_name := entry_name repo; out_success := success |}];
             res_services := res_services results;
             res_success := res_success results && success |}.
Proof.
  unfold pullStep, bind.
  destruct (pullRepository config repo st) as [[success|e] s] eqn:E;
    [|discriminate].
  destruct repo as [|r]; [discriminate|].
  simpl. unfold ret. intros H. injection H as <- <-.
  exists success. split; [reflexivity|].
  f_equal. now destruct success, (res_success results).
Qed.

Lemma total_pullStep config (r : RepoConfig) results :
  total (pullStep config (JObject r) results).
Proof.
  unfold pullStep. apply total_bind; [apply total_pullRepository|].
  intros success. simpl. auto with hook.
Qed.

(** What the loop returns is what it was given, extended by the chain of
    the calls it made. *)
Lemma forOf_pullStep_Return config repos : forall acc st results st',
  forOf repos (pullStep config) acc st = (Return results, st') ->
  exists entries,
    pull_chain config st repos entries st' /\
    res_repositories results = res_repositories acc ++ entries /\
    res_services results = res_services acc /\
    res_success results = res_success acc && forallb out_success entries.
Proof.
  induction repos as [|repo repos IH]; intros acc st results st' H; simpl in H.
  - injection H as <- <-. exists []. repeat split.
    + constructor.
    + now rewrite app_nil_r.
    + simpl. now rewrite andb_true_r.
  - unfold bind in H.
    destruct (pullStep config repo acc st) as [[acc1|e] st1] eqn:E;
      [|discriminate].
    apply pullStep_Return in E as (success & Ep & ->).
    apply IH in H as (entries & Hc & Hr & Hs & Hb). simpl in Hr, Hs, Hb.
    exists ({| out_name := entry_name repo; out_success := success |}
              :: entries).
    repeat split.
    + econstructor; eassumption.
    + now rewrite Hr, <- app_assoc.
    + assumption.
    + simpl. now rewrite Hb, andb_assoc.
Qed.

Lemma total_forOf_pullStep config repos :
  Forall is_object repos ->
  forall acc, total (forOf repos (pullStep config) acc).
Proof.
  intros Hobj. apply total_forOf. intros repo Hin acc.
  rewrite Forall_forall in Hobj. specialize (Hobj repo Hin).
  destruct repo; [contradiction | apply total_pullStep].
Qed.

Lemma pull_chain_length config st repos entries st' :
  pull_chain config st repos entries st' -> length entries = length repos.
Proof. induction 1; simpl; congruence. Qed.

Lemma pull_chain_names config st repos entries st' :
  pull_chain config st repos entries st' ->
  map out_name entries = map entry_name repos.
Proof. induction 1; simpl; congruence. Qed.

(** The entry at a position is the outcome of the call made for the
    repository at that position. *)
Lemma pull_chain_nth config st pre repo post entries st' :
  pull_chain config st (pre ++ repo :: post) entries st' ->
  exists st1 success st2,
    pull_chain config st pre (firstn (length pre) entries) st1 /\
    pullRepository config repo st1 = (Return success, st2) /\
    nth_error entries (length pre)
      = Some {| out_name := entry_name repo; out_success := success |} /\
    pull_chain config st2 post (skipn (S (length pre)) entries) st'.
Proof.
  revert st entries. induction pre as [|x pre IH]; intros st entries H;
    simpl in H; inversion H; subst; simpl.
  - exists st, success, st1. repeat split; try assumption. constructor.
  - match goal with Hc : pull_chain _ _ (pre ++ _) _ _ |- _ =>
      apply IH in Hc as (sa & b & sb & Hpre & Hcall & Hnth & Hpost) end.
    exists sa, b, sb. repeat split; try assumption.
    econstructor; eassumption.
Qed.

(** ** [restartDockerServices] *)

Lemma total_restartDockerServices config (services : list jsstring) :
  total (restartDockerServices config services).
Proof.
  destruct services as [|s l]; unfold restartDockerServices.
  - auto with hook.
  - apply total_try_catch. intros error. auto 8 with hook.
Qed.

(** ** [handleWebhook] *)

Lemma handleWebhook_Return config (payload : JSON) st results st' :
  handleWebhook config payload st = (Return results, st') ->
  exists st1 st2 servicesSuccess,
    agree st st1 /\
    pull_chain config st1 (repositories config) (res_repositories results) st2 /\
    restartDockerServices config (dockerServices config) st2
      = (Return servicesSuccess, st') /\
    res_services results = [{| svc_success := servicesSuccess |}] /\
    res_success results
      = forallb out_success (res_repositories results) && servicesSuccess.
Proof.
  unfold handleWebhook. skip_silent. unfold bind.
  destruct (forOf (repositories config) (pullStep config) emptyResults st0)
    as [[acc|e] st2] eqn:Eloop; [|discriminate].
  destruct (restartDockerServices config (dockerServices config) st2)
    as [[servicesSuccess|e] st3] eqn:Esvc; [|discriminate].
  unfold ret. intros H. injection H as <- <-.
  apply forOf_pullStep_Return in Eloop as (entries & Hc & Hr & Hs & Hb).
  simpl in Hr, Hs, Hb. subst entries.
  exists st0, st2, servicesSuccess. simpl. rewrite Hs, Hb.
  repeat split; try assumption; try apply Ag.
  now destruct servicesSuccess, (forallb out_success (res_repositories acc)).
Qed.

Lemma total_handleWebhook config (payload : JSON) :
  Forall is_object (repositories config) ->
  total (handleWebhook config payload).
Proof.
  intros Hobj. unfold handleWebhook.
  apply total_bind; [auto with hook|]. intros _.
  apply total_bind; [now apply total_forOf_pullStep|]. intros results.
  apply total_bind; [apply total_restartDockerServices|]. intros b.
  apply total_ret.
Qed.

(** C4. With [N] configured repositories (each an object), [handleWebhook]
    returns, and the [repositories] of its result is the chain of the [N]
    calls of [pullRepository], one per configured repository, in the
    configured order, each made in the state the previous call left and
    each recorded with the target's name and its own outcome, whatever the
    outcomes of the others. *)
Theorem handleWebhook_one_entry_per_repository
  config (payload : JSON) st :
  Forall is_object (repositories config) ->
  exists results st' st1 st2,
    handleWebhook config payload st = (Return results, st') /\
    agree st st1 /\
    pull_chain config st1 (repositories config) (res_repositories results) st2 /\
    length (res_repositories results) = length (repositories config) /\
    map out_name (res_repositories results)
      = map entry_name (repositories config) /\
    (forall pre repo post,
        repositories config = pre ++ repo :: post ->
        exists sa success sb,
          pullRepository config repo sa = (Return success, sb) /\
          nth_error (res_repositories results) (length pre)
            = Some {| out_name := entry_name repo; out_success := success |}).
Proof.
  intros Hobj.
  destruct (total_handleWebhook config payload Hobj st) as (results & st' & E).
  destruct (handleWebhook_Return _ _ _ _ _ E)
    as (st1 & st2 & b & Ag & Hc & _).
  exists results, st', st1, st2. repeat split; try assumption; try apply Ag.
  - eapply pull_chain_length; eassumption.
  - eapply pull_chain_names; eassumption.
  - intros pre repo post Hsplit. rewrite Hsplit in Hc.
    apply pull_chain_nth in Hc as (sa & success & sb & _ & Hp & Hn & _).
    now exists sa, success, sb.
Qed.

(** C6. The [success] flag of the result that [handleWebhook] returns is
    the conjunction of every recorded repository outcome and of the outcome
    of the service batch, its only [services] entry; it is true when no
    repository and no service is configured, and false as soon as one
    recorded outcome is false. *)
Theorem handleWebhook_success_is_conjunction
  config (payload : JSON) st results st' :
  handleWebhook config payload st = (Return results, st') ->
  (exists servicesSuccess,
      res_services results = [{| svc_success := servicesSuccess |}] /\
      res_success results
        = forallb out_success (res_repositories results) && servicesSuccess) /\
  res_success results
    = forallb out_success (res_repositories results)
      && forallb svc_success (res_services results) /\
  (repositories config = [] -> dockerServices config = [] ->
   res_success results = true) /\
  (forall o, In o (res_repositories results) -> out_success o = false ->
             res_success results = false) /\
  (forall o, In o (res_services results) -> svc_success o = false ->
             res_success results = false).
Proof.
  intros E.
  destruct (handleWebhook_Return _ _ _ _ _ E)
    as (st1 & st2 & b & Ag & Hc & Hsvc & Hs & Hb).
  assert (Hall : res_success results
                 = forallb out_success (res_repositories results)
                   && forallb svc_success (res_services results)).
  { rewrite Hb, Hs. simpl. now rewrite andb_true_r. }
  split; [now exists b|]. split; [exact Hall|]. split; [|split].
  - intros Hrepos Hservices. rewrite Hrepos in Hc. inversion Hc; subst.
    rewrite Hservices in Hsvc. unfold restartDockerServices in Hsvc.
    destruct (silent_run
                (log_debug config
                   (lit "No Docker services configured for restart"))
                (fun _ => ret true) st2
                (silent_log_debug _ _)) as (a & s & _ & Er).
    rewrite Er in Hsvc. injection Hsvc as <- _.
    rewrite Hb. match goal with Hnil : [] = _ |- _ => now rewrite <- Hnil end.
  - intros o Hin Ho. rewrite Hall.
    apply andb_false_iff. left.
    apply not_true_is_false. intros Hf.
    rewrite forallb_forall in Hf. specialize (Hf o Hin). congruence.
  - intros o Hin Ho. rewrite Hall.
    apply andb_false_iff. right.
    apply not_true_is_false. intros Hf.
    rewrite forallb_forall in Hf. specialize (Hf o Hin). congruence.
Qed.

(** ** [verifySignature] *)

Lemma verifySignature_no_secret config (payload signature : jsstring) st :
  secret config = [] ->
  exists st',
    verifySignature config payload signature st = (Return true, st') /\
    agree st st'.
Proof.
  intros Hsecret. unfold verifySignature. rewrite Hsecret.
  skip_silent. now exists st0.
Qed.

(** C7. With an empty (or unset, which the configuration reads as empty)
    secret, [verifySignature] returns true for every payload and every
    signature: all it does is write its debug line, so no digest is computed
    or compared, whatever the host's HMAC is. *)
Theorem verifySignature_without_secret
  config (payload signature : jsstring) st :
  secret config = [] ->
  verifySignature config payload signature st
    = (Return true,
       snd (log_debug config
              (lit "No webhook secret configured, skipping signature verification")
              st)) /\
  agree st (snd (verifySignature config payload signature st)).
Proof.
  intros Hsecret. unfold verifySignature. rewrite Hsecret.
  destruct (silent_log_debug config
              (lit "No webhook secret configured, skipping signature verification")
              st) as ([] & st1 & E & Ag).
  rewrite (bind_Return _ _ _ _ _ E). rewrite E. simpl. now split.
Qed.

(** With a secret, [verifySignature] is [crypto.timingSafeEqual] on the two
    buffers: a comparison when they have the same number of bytes, a
    [RangeError] otherwise. *)
Lemma verifySignature_with_secret config (payload signature : jsstring) st :
  secret config <> [] ->
  verifySignature config payload signature st
    = if (length (Buffer_from signature)
          =? length (Buffer_from (expected_signature config payload)))%nat
      then (Return (str_eqb (Buffer_from signature)
                        (Buffer_from (expected_signature config payload))), st)
      else (Throw (RangeError
                     (lit "Input buffers must have the same byte length")), st).
Proof.
  intros Hsecret. unfold verifySignature, timingSafeEqual, expected_signature.
  destruct (secret config) as [|u s] eqn:E; [contradiction|].
  now destruct (_ =? _)%nat.
Qed.

Lemma verifySignature_length_mismatch
  config (payload signature : jsstring) st :
  secret config <> [] ->
  length (Buffer_from signature)
    <> length (Buffer_from (expected_signature config payload)) ->
  verifySignature config payload signature st
    = (Throw (RangeError (lit "Input buffers must have the same byte length")),
       st).
Proof.
  intros Hsecret Hlen. rewrite verifySignature_with_secret by assumption.
  apply Nat.eqb_neq in Hlen. now rewrite Hlen.
Qed.

(** In particular for ASCII strings, whose length is their byte length. *)
Lemma verifySignature_ascii_length_mismatch
  config (payload signature : jsstring) st :
  secret config <> [] ->
  Forall (fun u => u < 0x80) signature ->
  Forall (fun u => u < 0x80) (expected_signature config payload) ->
  length signature <> length (expected_signature config payload) ->
  verifySignature config payload signature st
    = (Throw (RangeError (lit "Input buffers must have the same byte length")),
       st).
Proof.
  intros Hsecret Hs Hd Hlen. apply verifySignature_length_mismatch;
    [assumption|].
  now rewrite !Buffer_from_ascii by assumption.
Qed.

Lemma verifySignature_agree config (payload signature : jsstring) st :
  agree st (snd (verifySignature config payload signature st)).
Proof.
  destruct (secret config) as [|u s] eqn:E.
  - destruct (verifySignature_no_secret config payload signature st E)
      as (st' & Ev & Ag).
    now rewrite Ev.
  - rewrite verifySignature_with_secret by congruence.
    destruct (_ =? _)%nat; apply agree_refl.
Qed.

(** ** The route [POST /hook/refresh] *)


(** ** The route [POST /hook/refresh] *)

Lemma bind_ret {A B : Type} (a : A) (k : A -> M B) st :
  bind (ret a) k st = k a st.
Proof. reflexivity. Qed.

(** The [try] block of the route, once the signature check is passed. *)
Ltac run_try_block :=
  match goal with
  | |- context [handleWebhook ?config ?payload ?st] =>
      let c := fresh "c" in
      let st2 := fresh "st" in
      let E := fresh "E" in
      destruct (handleWebhook config payload st) as [c st2] eqn:E;
      exists c, st2; unfold try_catch;
      destruct c as [results|e];
      [ rewrite (bind_Return _ _ _ _ _ E) | rewrite (bind_Throw _ _ _ _ _ E) ];
      cbv beta zeta; skip_silent;
      (eexists; (split; [reflexivity | split; [eassumption | reflexivity]]))
  end.

Lemma bind_lift {A B : Type} (c : Completion A) (k : A -> M B) st :
  bind (lift c) k st
  = match c with
    | Return a => k a st
    | Throw e => (Throw e, st)
    end.
Proof. unfold bind, lift. now destruct c. Qed.

(** When [JSON.stringify(req.body)] throws, the handler rejects with that
    error before anything else is done. *)
Lemma hook_refresh_stringify_throws config (req : Request) st e :
  JSON_stringify (req_body req) = Throw e ->
  hook_refresh config req st = (Throw e, st).
Proof.
  intros Hjs. unfold hook_refresh. cbv zeta. now rewrite bind_lift, Hjs.
Qed.

(** When it gives [undefined], the handler rejects at
    [payload.substring]. *)
Lemma hook_refresh_undefined_payload config (req : Request) st :
  JSON_stringify (req_body req) = Return None ->
  exists st',
    agree st st' /\
    hook_refresh config req st
    = (Throw (TypeError (lit
         "Cannot read properties of undefined (reading 'substring')")), st').
Proof.
  intros Hjs. unfold hook_refresh. cbv zeta. rewrite bind_lift, Hjs.
  do 2 skip_silent. exists st1. split; [eauto using agree_trans|].
  reflexivity.
Qed.

(** What the route does on a body that serialises to [payload], up to what
    it writes to the console: the three log lines, then the check of the
    signature when the header holds a non-empty string, then either the 401
    response, or the run of [handleWebhook] and a response built from its
    completion. *)
Lemma hook_refresh_run config (req : Request) (payload : jsstring) st :
  JSON_stringify (req_body req) = Return (Some payload) ->
  exists st1, agree st st1 /\
    let processing st2 :=
      exists c st3 st',
        handleWebhook config (req_body req) st2 = (c, st3) /\
        agree st3 st' /\
        hook_refresh config req st
          = (Return match c with
                    | Return results => processed results
                    | Throw e => internal_error e
                    end, st') in
    match x_hub_signature_256 req with
    | Some (u :: s) =>
        match verifySignature config payload (u :: s) st1 with
        | (Return true, st2) => processing st2
        | (Return false, st2) =>
            exists st', agree st2 st' /\
              hook_refresh config req st = (Return unauthorized, st')
        | (Throw e, st2) => hook_refresh config req st = (Throw e, st2)
        end
    | _ => processing st1
    end.
Proof.
  intros Hjs. unfold hook_refresh. cbv zeta. rewrite bind_lift, Hjs.
  do 3 skip_silent.
  exists st2. split; [eauto using agree_trans|].
  destruct (x_hub_signature_256 req) as [[|u s]|].
  - rewrite bind_ret. cbv iota. run_try_block.
  - destruct (verifySignature config payload (u :: s) st2)
      as [[[|]|e] st3] eqn:Ev.
    + rewrite (bind_Return _ _ st2 false st3)
        by (now rewrite (bind_Return _ _ _ _ _ Ev)).
      cbv iota. run_try_block.
    + rewrite (bind_Return _ _ st2 true st3)
        by (now rewrite (bind_Return _ _ _ _ _ Ev)).
      cbv iota. skip_silent. now exists st4.
    + rewrite (bind_Throw _ _ st2 e st3)
        by (now rewrite (bind_Throw _ _ _ _ _ Ev)).
      reflexivity.
  - rewrite bind_ret. cbv iota. run_try_block.
Qed.

(** A request without the signature header, whose body serialises, is
    processed: [handleWebhook] runs, whether or not a secret is
    configured. *)
Lemma hook_refresh_without_signature
  config (req : Request) (payload : jsstring) st :
  JSON_stringify (req_body req) = Return (Some payload) ->
  x_hub_signature_256 req = None ->
  exists st1 c st2 st',
    agree st st1 /\
    handleWebhook config (req_body req) st1 = (c, st2) /\
    agree st2 st' /\
    hook_refresh config req st
      = (Return match c with
                | Return results => processed results
                | Throw e => internal_error e
                end, st').
Proof.
  intros Hjs Hnone.
  destruct (hook_refresh_run config req payload st Hjs) as (st1 & Ag & Hrun).
  cbv zeta in Hrun. rewrite Hnone in Hrun.
  destruct Hrun as (c & st2 & st' & Hh & Ag' & E).
  now exists st1, c, st2, st'.
Qed.

(** A request whose signature is not the expected one, with a secret
    configured: no command is run; the response is the 401 when the two
    buffers have the same number of bytes, and otherwise the handler's
    promise rejects with the [RangeError] of [crypto.timingSafeEqual] and no
    response is sent. *)
Lemma hook_refresh_rejected_signature
  config (req : Request) (payload signature : jsstring) st :
  JSON_stringify (req_body req) = Return (Some payload) ->
  x_hub_signature_256 req = Some signature ->
  signature <> [] ->
  secret config <> [] ->
  Buffer_from signature <> Buffer_from (expected_signature config payload) ->
  exists st',
    agree st st' /\
    hook_refresh config req st
      = (if (length (Buffer_from signature)
             =? length (Buffer_from (expected_signature config payload)))%nat
         then Return unauthorized
         else Throw (RangeError
                       (lit "Input buffers must have the same byte length")),
         st').
Proof.
  intros Hjs Hsig Hne Hsecret Hwrong.
  destruct (hook_refresh_run config req payload st Hjs) as (st1 & Ag & Hrun).
  cbv zeta in Hrun. rewrite Hsig in Hrun.
  destruct signature as [|u s]; [contradiction|].
  rewrite verifySignature_with_secret in Hrun by assumption.
  apply str_eqb_neq in Hwrong.
  destruct (_ =? _)%nat.
  - rewrite Hwrong in Hrun. destruct Hrun as (st' & Ag' & E).
    exists st'. split; [eauto using agree_trans | exact E].
  - exists st1. split; [exact Ag | exact Hrun].
Qed.

(** C9. When every configured repository entry is an object,
    [handleWebhook] returns a result in every state and for every behaviour
    of the host's commands; and every response of the route is then the 401
    or the one built from that result, never the one of the [catch] branch
    with the error 'Internal server error'. *)
Theorem handleWebhook_never_throws config :
  Forall is_object (repositories config) ->
  (forall (payload : JSON) st,
      exists results st',
        handleWebhook config payload st = (Return results, st')) /\
  (forall (req : Request) st resp st',
      hook_refresh config req st = (Return resp, st') ->
      (resp = unauthorized \/ exists results, resp = processed results) /\
      forall e, resp <> internal_error e).
Proof.
  intros Hobj. split; [intros payload st; now apply total_handleWebhook|].
  intros req st resp st' E.
  assert (Hcases : resp = unauthorized \/ exists results, resp = processed results).
  { destruct (JSON_stringify (req_body req)) as [[payload|]|e0] eqn:Hjs;
      [ | destruct (hook_refresh_undefined_payload config req st Hjs)
            as (sx & _ & Ex); congruence
        | rewrite (hook_refresh_stringify_throws config req st e0 Hjs) in E;
          discriminate ].
    destruct (hook_refresh_run config req payload st Hjs)
      as (st1 & Ag & Hrun).
    cbv zeta in Hrun.
    assert (Hproc : forall st2,
               (exists c st3 st'0,
                   handleWebhook config (req_body req) st2 = (c, st3) /\
                   agree st3 st'0 /\
                   hook_refresh config req st
                     = (Return match c with
                               | Return results => processed results
                               | Throw e => internal_error e
                               end, st'0)) ->
               exists results, resp = processed results).
    { intros st2 (c & st3 & st'0 & Hh & _ & E').
      destruct (total_handleWebhook config (req_body req) Hobj st2)
        as (results & st3' & Hr).
      rewrite Hr in Hh. injection Hh as <- _.
      exists results. congruence. }
    destruct (x_hub_signature_256 req) as [[|u s]|]; eauto.
    destruct (verifySignature _ _ _ _) as [[[|]|e] st2]; eauto.
    - destruct Hrun as (st'0 & _ & E'). left. congruence.
    - congruence. }
  split; [exact Hcases|].
  intros e. destruct Hcases as [-> | [results ->]]; discriminate.
Qed.

(** C10. The payload handed to [handleWebhook] has no part in what it
    does: on two payloads, with the same configuration and in the same
    state of the host, it completes alike, and leaves the same state. *)
Theorem handleWebhook_ignores_payload config (payload1 payload2 : JSON) st :
  handleWebhook config payload1 st = handleWebhook config payload2 st.
Proof. reflexivity. Qed.

(** ** A repository whose path is missing *)

Lemma bind_fs_existsSync {B : Type} (p : option jsstring) (k : bool -> M B) st :
  bind (fs_existsSync p) k st = k (existsSync (world st) p) st.
Proof. reflexivity. Qed.

Lemma bind_throw {A B : Type} (e : JSError) (k : A -> M B) st :
  bind (throw e) k st = (Throw e, st).
Proof. reflexivity. Qed.

Lemma pullRepository_missing config (r : RepoConfig) st :
  existsSync (world st) (path r) = false ->
  exists st', pullRepository config (JObject r) st = (Return false, st') /\
              agree st st'.
Proof.
  intros Hmissing. unfold pullRepository, try_catch. cbv zeta.
  skip_silent.
  rewrite bind_fs_existsSync.
  destruct Ag as [Hw Hi]. rewrite <- Hw, Hmissing.
  cbn [negb]. rewrite bind_throw. cbv iota beta.
  skip_silent. cbn [stderr_of truthy]. rewrite bind_ret.
  exists st1. split; [reflexivity|].
  destruct Ag as [Hw' Hi']. split; congruence.
Qed.

Lemma pull_chain_app config st pre e1 st1 post e2 st2 :
  pull_chain config st pre e1 st1 ->
  pull_chain config st1 post e2 st2 ->
  pull_chain config st (pre ++ post) (e1 ++ e2) st2.
Proof.
  induction 1; intros Hpost; simpl; [assumption|].
  econstructor; [eassumption | auto].
Qed.

(** A chain of pulls does not depend on the console it starts with. *)
Lemma pull_chain_agree config st repos entries st' : 
  pull_chain config st repos entries st' ->
  forall sa, agree st sa ->
  exists sa', pull_chain config sa repos entries sa' /\ agree st' sa'.
Proof.
  induction 1 as [st|st repo success st1 repos entries st' Hp Hc IH];
    intros sa Ag.
  - exists sa. split; [constructor | assumption].
  - destruct (blind_pullRepository config repo st sa Ag) as [Ef As].
    rewrite Hp in Ef, As. simpl in Ef, As.
    destruct (pullRepository config repo sa) as [c sa1] eqn:Ea.
    simpl in Ef, As. subst c.
    destruct (IH sa1 As) as (sa' & Hc' & Ag').
    exists sa'. split; [econstructor; eassumption | assumption].
Qed.

(** X18. A repository whose configured path does not
    exist (nothing at all is at that path, or the path is not set) makes
    [pullRepository] return false without running any command and without
    touching the host; and in a run over several repositories the calls
    for the others return what they return without it: the chain before it
    and the chain after it are unchanged, its own entry is false. *)
Theorem pullRepository_missing_path config (r : RepoConfig) st :
  existsSync (world st) (path r) = false ->
  (exists st',
      pullRepository config (JObject r) st = (Return false, st') /\
      world st' = world st /\ invoked st' = invoked st) /\
  (forall st0 pre e1 post e2 st2,
      pull_chain config st0 pre e1 st ->
      pull_chain config st post e2 st2 ->
      exists st2',
        pull_chain config st0 (pre ++ JObject r :: post)
          (e1 ++ {| out_name := name r; out_success := false |} :: e2) st2' /\
        world st2' = world st2 /\ invoked st2' = invoked st2).
Proof.
  intros Hmissing.
  destruct (pullRepository_missing config r st Hmissing) as (st' & E & Ag).
  split.
  - exists st'. destruct Ag as [Hw Hi]. now repeat split.
  - intros st0 pre e1 post e2 st2 Hpre Hpost.
    destruct (pull_chain_agree _ _ _ _ _ Hpost st' Ag) as (st2' & Hpost' & Ag').
    exists st2'. split.
    + eapply pull_chain_app; [eassumption|].
      apply (pull_chain_cons config st (JObject r) false st'); assumption.
    + destruct Ag' as [Hw Hi]. now split.
Qed.

(** ** Restarting services *)

Lemma execAsync_run (command : jsstring) st :
  execAsync command st
    = (match exec_error (fst (child_process_exec (world st) command)) with
       | Some error =>
           Throw (ExecRejection error
                    (exec_stdout (fst (child_process_exec (world st) command)))
                    (exec_stderr (fst (child_process_exec (world st) command))))
       | None =>
           Return (exec_stdout (fst (child_process_exec (world st) command)),
                   exec_stderr (fst (child_process_exec (world st) command)))
       end,
       {| world := snd (child_process_exec (world st) command);
          invoked := invoked st ++ [command];
          console := console st |}).
Proof.
  unfold execAsync.
  destruct (child_process_exec (world st) command) as [r w']. simpl.
  now destruct (exec_error r).
Qed.

(** One turn of the loop: the command is run, and the turn completes
    normally exactly when the command succeeds. *)
Lemma restartStep_run config (service : jsstring) st :
  exists st',
    world st' = snd (child_process_exec (world st) (restartCommand service)) /\
    invoked st' = invoked st ++ [restartCommand service] /\
    restartStep config service tt st
      = (match exec_error
                 (fst (child_process_exec (world st) (restartCommand service)))
         with
         | Some error =>
             Throw (ExecRejection error
                      (exec_stdout
                         (fst (child_process_exec (world st)
                                 (restartCommand service))))
                      (exec_stderr
                         (fst (child_process_exec (world st)
                                 (restartCommand service)))))
         | None => Return tt
         end, st').
Proof.
  unfold restartStep. skip_silent. destruct Ag as [Hw Hi].
  unfold bind at 1. rewrite execAsync_run, <- Hw, <- Hi.
  destruct (exec_error _).
  - eexists. repeat split; reflexivity.
  - match goal with
    | |- context [log_info ?c ?m ?s] =>
        destruct (silent_log_info c m s) as ([] & st' & E & [Hw' Hi']);
        rewrite E
    end.
    exists st'. simpl in Hw', Hi'. repeat split; congruence.
Qed.

Lemma forOf_restartStep_ok config (services : list jsstring) :
  forall st w1,
    runAll (world st) (map restartCommand services) = Some w1 ->
    exists st1,
      forOf services (restartStep config) tt st = (Return tt, st1) /\
      world st1 = w1 /\
      invoked st1 = invoked st ++ map restartCommand services.
Proof.
  induction services as [|s l IH]; intros st w1 Hrun; simpl in Hrun.
  - injection Hrun as <-. exists st. simpl. now rewrite app_nil_r.
  - destruct (restartStep_run config s st) as (sa & Hw & Hi & E).
    destruct (child_process_exec (world st) (restartCommand s)) as [r w'].
    simpl in Hw, E.
    destruct (exec_error r); [discriminate|].
    rewrite <- Hw in Hrun.
    destruct (IH sa w1 Hrun) as (st1 & El & Hw1 & Hi1).
    exists st1. simpl. rewrite (bind_Return _ _ _ _ _ E).
    repeat split; try assumption.
    rewrite Hi1, Hi, <- app_assoc. reflexivity.
Qed.

(** C5. In a batch where the restart of one service fails and those of all
    the services before it succeed, [restartDockerServices] returns false,
    and the commands run are the restarts of the services up to and
    including the failing one, in order: none is run for a service after
    it. *)
Theorem restartDockerServices_short_circuit
  config (pre : list jsstring) (k : jsstring) (post : list jsstring) st w1
  (error : jsstring) :
  runAll (world st) (map restartCommand pre) = Some w1 ->
  exec_error (fst (child_process_exec w1 (restartCommand k))) = Some error ->
  exists st',
    restartDockerServices config (pre ++ k :: post) st = (Return false, st') /\
    invoked st'
      = invoked st ++ map restartCommand pre ++ [restartCommand k] /\
    world st' = snd (child_process_exec w1 (restartCommand k)).
Proof.
  intros Hpre Hfail.
  destruct (forOf_restartStep_ok config pre st w1 Hpre) as (st1 & El & Hw1 & Hi1).
  destruct (restartStep_run config k st1) as (st2 & Hw2 & Hi2 & Ek).
  rewrite Hw1 in Hw2, Ek.
  rewrite Hfail in Ek.
  assert (Eloop :
            forOf (pre ++ k :: post) (restartStep config) tt st
            = (Throw (ExecRejection error
                        (exec_stdout
                           (fst (child_process_exec w1 (restartCommand k))))
                        (exec_stderr
                           (fst (child_process_exec w1 (restartCommand k))))),
               st2)).
  { rewrite forOf_app, (bind_Return _ _ _ _ _ El). simpl.
    now rewrite (bind_Throw _ _ _ _ _ Ek). }
  unfold restartDockerServices.
  destruct (pre ++ k :: post) as [|s l] eqn:Es;
    [destruct pre; discriminate|].
  cbv iota. unfold try_catch.
  rewrite (bind_Throw _ _ _ _ _ Eloop). cbv iota beta.
  do 2 skip_silent.
  exists st3. split; [reflexivity|].
  destruct Ag as [Hwa Hia], Ag0 as [Hwb Hib].
  split; [rewrite <- Hib, <- Hia, Hi2, Hi1, <- app_assoc; reflexivity|].
  congruence.
Qed.


(** * Further properties of the program *)

(** ** Which signatures [verifySignature] accepts *)

(** X1. Signing and verifying: with a secret configured, the expected
    string ["sha256=" + digest] of a payload is accepted for that payload,
    and the state is left as it was. *)
Theorem verifySignature_accepts_expected config (payload : jsstring) st :
  secret config <> [] ->
  verifySignature config payload (expected_signature config payload) st
    = (Return true, st).
Proof.
  intros Hsecret. rewrite verifySignature_with_secret by assumption.
  now rewrite Nat.eqb_refl, str_eqb_refl.
Qed.

Lemma testbit7_ge (a : N) : N.testbit a 7 = true -> 0x80 <= a.
Proof.
  intros Hbit. destruct (N.le_gt_cases 0x80 a) as [Hle|Hlt]; [exact Hle|].
  exfalso. destruct (N.eq_dec a 0) as [->|Hnz]; [discriminate Hbit|].
  assert (Hlog : N.log2 a < 7).
  { apply N.log2_lt_pow2; [lia | exact Hlt]. }
  rewrite (N.bits_above_log2 a 7 Hlog) in Hbit. discriminate.
Qed.

Lemma lor_lead_not_ascii (a x : N) :
  N.testbit a 7 = true -> (N.lor a x <? 0x80) = false.
Proof.
  intros Ha. apply N.ltb_ge, testbit7_ge.
  now rewrite N.lor_spec, Ha.
Qed.

(** Only ASCII strings have an ASCII encoding. *)
Lemma Buffer_from_ascii_inv (s : jsstring) :
  isASCII (Buffer_from s) = true -> isASCII s = true.
Proof.
  assert (H : forall n s, (length s <= n)%nat ->
                          isASCII (Buffer_from s) = true -> isASCII s = true).
  { clear s. induction n as [|n IH]; intros [|u t] Hn;
      cbn [Buffer_from length isASCII forallb] in *; try lia; try reflexivity.
    destruct (u <? 0x80) eqn:Hu.
    - cbn [forallb]. rewrite Hu. cbn [andb]. apply IH. lia.
    - destruct (u <? 0x800).
      { cbn [forallb].
        rewrite (lor_lead_not_ascii 0xC0 (N.shiftr u 6) eq_refl).
        discriminate. }
      destruct (isHighSurrogate u).
      + destruct t as [|v t']; [discriminate|].
        destruct (isLowSurrogate v).
        * cbn [forallb]. rewrite lor_lead_not_ascii by reflexivity.
          discriminate.
        * discriminate.
      + destruct (isLowSurrogate u); [discriminate|].
        cbn [forallb].
        rewrite (lor_lead_not_ascii 0xE0 (N.shiftr u 12) eq_refl).
        discriminate. }
  apply (H (length s)). lia.
Qed.

Lemma isASCII_Forall (s : jsstring) :
  isASCII s = true -> Forall (fun u => u < 0x80) s.
Proof.
  unfold isASCII. rewrite forallb_forall, Forall_forall.
  intros H u Hin. apply N.ltb_lt. now apply H.
Qed.

(** X2. With a secret configured and an ASCII digest (a hexadecimal one
    is), [verifySignature] returns true for exactly one signature, the
    expected string: no other string, ASCII or not, is accepted. *)
Theorem verifySignature_true_iff config (payload signature : jsstring) st :
  secret config <> [] ->
  isASCII (expected_signature config payload) = true ->
  fst (verifySignature config payload signature st) = Return true
  <-> signature = expected_signature config payload.
Proof.
  intros Hsecret Hascii. split.
  - rewrite verifySignature_with_secret by assumption.
    destruct (_ =? _)%nat; [|discriminate].
    cbn [fst]. intros Htrue.
    assert (H : Buffer_from signature
                = Buffer_from (expected_signature config payload))
      by (apply str_eqb_eq; congruence).
    rewrite (Buffer_from_ascii (expected_signature config payload)) in H
      by now apply isASCII_Forall.
    rewrite <- H in Hascii. apply Buffer_from_ascii_inv in Hascii.
    rewrite Buffer_from_ascii in H by now apply isASCII_Forall.
    exact H.
  - intros ->. rewrite verifySignature_with_secret by assumption.
    now rewrite Nat.eqb_refl, str_eqb_refl.
Qed.

(** ** [GET /health] *)

(** X3. The [hasSecret] flag of the health report is false exactly when
    [verifySignature] accepts every signature for every payload. *)
Theorem health_hasSecret_false_iff config (now : jsstring) st :
  hasSecret (health_config (get_health config now)) = false
  <-> (forall payload signature : jsstring,
          fst (verifySignature config payload signature st) = Return true).
Proof.
  cbn [get_health health_config hasSecret]. split.
  - intros H payload signature.
    destruct (secret config) as [|u s] eqn:Es; [|discriminate].
    destruct (verifySignature_no_secret config payload signature st Es)
      as (st' & Ev & _).
    now rewrite Ev.
  - intros H. destruct (secret config) as [|u s] eqn:Es; [reflexivity|].
    exfalso. specialize (H [] []).
    rewrite verifySignature_length_mismatch in H; [discriminate|congruence|].
    pose proof (Buffer_from_length (expected_signature config [])) as Hlen.
    unfold expected_signature in Hlen at 1. rewrite length_app in Hlen.
    change (length (lit "sha256=")) with 7%nat in Hlen.
    cbn [Buffer_from length]. lia.
Qed.

(** ** A repository whose path exists *)

Lemma pullRepository_existing config (r : RepoConfig) st :
  existsSync (world st) (path r) = true ->
  exists st',
    pullRepository config (JObject r) st
      = (Return
           match exec_error
                   (fst (child_process_exec (world st) (pull_command_of r)))
           with
           | None => true
           | Some _ => false
           end, st') /\
    world st' = snd (child_process_exec (world st) (pull_command_of r)) /\
    invoked st' = invoked st ++ [pull_command_of r].
Proof.
  intros Hexists. unfold pullRepository, try_catch, pull_command_of.
  cbv zeta. skip_silent. rewrite bind_fs_existsSync.
  destruct Ag as [Hw Hi]. rewrite <- Hw, Hexists. cbn [negb].
  rewrite bind_ret. unfold bind at 1. rewrite execAsync_run, <- Hw, <- Hi.
  destruct (exec_error _).
  - cbv iota beta. do 2 skip_silent.
    exists st2. split; [reflexivity|].
    destruct Ag as [Hw1 Hi1], Ag0 as [Hw2 Hi2]. cbn [world invoked] in *.
    split; congruence.
  - cbv iota beta. skip_silent.
    exists st1. split; [reflexivity|].
    destruct Ag as [Hw1 Hi1]. cbn [world invoked] in *.
    split; congruence.
Qed.

(** X4. When the configured path exists, [pullRepository] hands exactly
    one command to the shell, [cd "<path>" && git pull origin <branch>] with
    the branch [main] when none is configured, and returns true exactly when
    that command ends without error; a failure of the command is turned into
    the outcome false, never thrown. *)
Theorem pullRepository_existing_path config (r : RepoConfig) st :
  existsSync (world st) (path r) = true ->
  exists st',
    pullRepository config (JObject r) st
      = (Return
           match exec_error
                   (fst (child_process_exec (world st) (pull_command_of r)))
           with
           | None => true
           | Some _ => false
           end, st') /\
    world st' = snd (child_process_exec (world st) (pull_command_of r)) /\
    invoked st' = invoked st ++ [pull_command_of r].
Proof. apply pullRepository_existing. Qed.

(** One call of [pullRepository], whatever is on disk. *)
Lemma pullRepository_step config (r : RepoConfig) st success st' :
  pullRepository config (JObject r) st = (Return success, st') ->
  (success = false /\ agree st st'
   /\ existsSync (world st) (path r) = false) \/
  (existsSync (world st) (path r) = true /\
   success = match exec_error
                     (fst (child_process_exec (world st) (pull_command_of r)))
             with
             | None => true
             | Some _ => false
             end /\
   world st' = snd (child_process_exec (world st) (pull_command_of r)) /\
   invoked st' = invoked st ++ [pull_command_of r]).
Proof.
  intros E. destruct (existsSync (world st) (path r)) eqn:Hexists.
  - right. destruct (pullRepository_existing config r st Hexists)
      as (sa & Ea & Hw & Hi).
    rewrite Ea in E. injection E as <- <-. auto.
  - left. destruct (pullRepository_missing config r st Hexists)
      as (sa & Ea & Ag).
    rewrite Ea in E. injection E as <- <-. auto.
Qed.

Lemma pull_chain_functional config st repos e1 s1 :
  pull_chain config st repos e1 s1 ->
  forall e2 s2, pull_chain config st repos e2 s2 -> e1 = e2 /\ s1 = s2.
Proof.
  induction 1 as [st|st repo success st1 repos entries st' Hp Hc IH];
    intros e2 s2 H2; inversion H2; subst.
  - now split.
  - match goal with
    | Hp' : pullRepository _ _ _ = _ |- _ =>
        rewrite Hp in Hp'; injection Hp' as <- <-
    end.
    match goal with
    | Hc' : pull_chain _ st1 _ _ _ |- _ => destruct (IH _ _ Hc') as [-> ->]
    end.
    now split.
Qed.

(** The commands of a chain of pulls. *)
Lemma pull_chain_commands config (rs : list RepoConfig) :
  forall st entries st',
    pull_chain config st (map JObject rs) entries st' ->
    exists P,
      invoked st' = invoked st ++ P /\
      incl P (map pull_command_of rs) /\
      (length P <= length rs)%nat /\
      (forallb out_success entries = true ->
       P = map pull_command_of rs /\
       runPulls (world st) rs = Some (world st')).
Proof.
  induction rs as [|r rs IH]; intros st entries st' H; simpl in H;
    inversion H; subst.
  - exists []. rewrite app_nil_r. repeat split; auto.
    + apply incl_refl.
  - match goal with
    | Hc : pull_chain _ _ (map JObject rs) _ _ |- _ =>
        apply IH in Hc as (P & Hi & Hincl & Hlen & Hall)
    end.
    match goal with
    | Hp : pullRepository _ _ _ = _ |- _ =>
        apply pullRepository_step in Hp
          as [(-> & [Hw0 Hi0] & Hex) | (Hex & -> & Hw0 & Hi0)]
    end.
    + exists P. repeat split.
      * congruence.
      * now apply incl_tl.
      * simpl. lia.
      * simpl. discriminate.
      * simpl in *. discriminate.
    + exists (pull_command_of r :: P). repeat split.
      * rewrite Hi, Hi0, <- app_assoc. reflexivity.
      * simpl. apply incl_cons; [now left | now apply incl_tl].
      * simpl. lia.
      * cbn [forallb out_success map] in *.
        destruct (exec_error _); [discriminate|].
        cbn [andb] in *. f_equal. now apply Hall.
      * cbn [forallb out_success map runPulls] in *. rewrite Hex.
        destruct (child_process_exec (world st) (pull_command_of r))
          as [x w'] eqn:Ex.
        cbn [fst snd] in *.
        destruct (exec_error x); [discriminate|].
        cbn [andb] in *. rewrite <- Hw0. now apply Hall.
Qed.

(** ** [restartDockerServices], in full *)

Lemma forOf_restartStep_cases config (services : list jsstring) :
  forall st, exists st' n,
    invoked st' = invoked st ++ map restartCommand (firstn n services) /\
    match runAll (world st) (map restartCommand services) with
    | Some w =>
        forOf services (restartStep config) tt st = (Return tt, st') /\
        n = length services /\ world st' = w
    | None =>
        exists e, forOf services (restartStep config) tt st = (Throw e, st')
    end.
Proof.
  induction services as [|s l IH]; intros st.
  - exists st, 0%nat. simpl. rewrite app_nil_r. auto.
  - destruct (restartStep_run config s st) as (sa & Hw & Hi & E).
    cbn [map runAll forOf].
    destruct (child_process_exec (world st) (restartCommand s)) as [r w'].
    cbn [fst snd] in *.
    destruct (exec_error r) as [error|].
    + exists sa, 1%nat. split; [exact Hi|].
      eexists. now rewrite (bind_Throw _ _ _ _ _ E).
    + destruct (IH sa) as (st' & n & Hi' & Hcase).
      exists st', (S n). split.
      * rewrite Hi', Hi, <- app_assoc. reflexivity.
      * rewrite (bind_Return _ _ _ _ _ E). rewrite Hw in Hcase.
        destruct (runAll w' (map restartCommand l)).
        -- destruct Hcase as (El & -> & Hw'). auto.
        -- exact Hcase.
Qed.

Lemma restartDockerServices_run config (services : list jsstring) st :
  exists st' n,
    restartDockerServices config services st
      = (Return match runAll (world st) (map restartCommand services) with
                | Some _ => true
                | None => false
                end, st') /\
    invoked st' = invoked st ++ map restartCommand (firstn n services) /\
    (forall w, runAll (world st) (map restartCommand services) = Some w ->
               n = length services /\ world st' = w).
Proof.
  destruct services as [|s l].
  - unfold restartDockerServices. skip_silent.
    exists st0, 0%nat. destruct Ag as [Hw Hi]. simpl. rewrite app_nil_r.
    split; [reflexivity|]. split; [congruence|].
    intros w0 Hw0. injection Hw0 as <-. auto.
  - destruct (forOf_restartStep_cases config (s :: l) st)
      as (sa & n & Hi & Hcase).
    unfold restartDockerServices, try_catch.
    destruct (runAll (world st) (map restartCommand (s :: l))) as [w|].
    + destruct Hcase as (El & -> & Hw).
      rewrite (bind_Return _ _ _ _ _ El).
      exists sa, (length (s :: l)).
      split; [reflexivity|]. split; [exact Hi|].
      intros w0 Hw0. injection Hw0 as <-. auto.
    + destruct Hcase as (e & El).
      rewrite (bind_Throw _ _ _ _ _ El). cbv iota beta.
      do 2 skip_silent.
      exists st1, n. destruct Ag as [Hwa Hia], Ag0 as [Hwb Hib].
      split; [reflexivity|]. split; [congruence|].
      intros w0 Hw0. discriminate.
Qed.

(** X5. [restartDockerServices] never throws.  It returns true exactly
    when every restart command of the batch succeeds, each run after the
    one before (so also for an empty batch, which runs nothing); the
    commands it runs are always an initial segment of the batch's restart
    commands, in the configured order, and the whole of it when it returns
    true. *)
Theorem restartDockerServices_outcome config (services : list jsstring) st :
  exists st' n,
    restartDockerServices config services st
      = (Return match runAll (world st) (map restartCommand services) with
                | Some _ => true
                | None => false
                end, st') /\
    invoked st' = invoked st ++ map restartCommand (firstn n services) /\
    (forall w, runAll (world st) (map restartCommand services) = Some w ->
               n = length services /\ world st' = w).
Proof. apply restartDockerServices_run. Qed.

(** ** The commands of a run of [handleWebhook] *)

Lemma handleWebhook_invoked
  config (rs : list RepoConfig) (payload : JSON) st results st' :
  repositories config = map JObject rs ->
  handleWebhook config payload st = (Return results, st') ->
  exists P n,
    invoked st'
      = invoked st ++ P
          ++ map restartCommand (firstn n (dockerServices config)) /\
    incl P (map pull_command_of rs) /\
    (length P <= length rs)%nat /\
    (res_success results = true ->
     P = map pull_command_of rs /\ n = length (dockerServices config)).
Proof.
  intros Hrepos E.
  destruct (handleWebhook_Return _ _ _ _ _ E)
    as (st1 & st2 & b & [Hw1 Hi1] & Hc & Hsvc & Hs & Hb).
  rewrite Hrepos in Hc.
  apply pull_chain_commands in Hc as (P & HiP & Hincl & Hlen & Hall).
  destruct (restartDockerServices_run config (dockerServices config) st2)
    as (sb & n & Er & Hin & Hn).
  rewrite Er in Hsvc. injection Hsvc as <- <-.
  exists P, n. split; [|split; [assumption | split; [assumption|]]].
  - rewrite Hin, HiP, <- Hi1, <- app_assoc. reflexivity.
  - intros Hsucc. rewrite Hb in Hsucc.
    apply andb_true_iff in Hsucc as [Hrs Hsv].
    split; [now apply Hall|].
    destruct (runAll (world st2) (map restartCommand (dockerServices config)))
      as [w|]; [|discriminate].
    now apply (Hn w).
Qed.

(** The repositories whose command a chain of pulls has run. *)
Lemma pull_chain_ran config (rs : list RepoConfig) :
  forall st entries st',
    pull_chain config st (map JObject rs) entries st' ->
    exists ran,
      subsequence ran rs /\
      invoked st' = invoked st ++ map pull_command_of ran.
Proof.
  induction rs as [|r rs IH]; intros st entries st' H; simpl in H;
    inversion H; subst.
  - exists []. rewrite app_nil_r. split; [constructor | reflexivity].
  - match goal with
    | Hc : pull_chain _ _ (map JObject rs) _ _ |- _ =>
        apply IH in Hc as (ran & Hsub & Hi)
    end.
    match goal with
    | Hp : pullRepository _ _ _ = _ |- _ =>
        apply pullRepository_step in Hp
          as [(_ & [_ Hi0] & _) | (_ & _ & _ & Hi0)]
    end.
    + exists ran. split; [now constructor | congruence].
    + exists (r :: ran). split; [now constructor|].
      rewrite Hi, Hi0, <- app_assoc. reflexivity.
Qed.

(** X6. [handleWebhook] runs no command but the pull commands of the
    configured repositories and the restart commands of the configured
    services: the pulls come first, those of some of the configured
    repositories taken in the configured order, so at most one for each;
    and then an initial segment of the restarts in configured order. *)
Theorem handleWebhook_commands
  config (rs : list RepoConfig) (payload : JSON) st results st' :
  repositories config = map JObject rs ->
  handleWebhook config payload st = (Return results, st') ->
  exists ran n,
    subsequence ran rs /\
    invoked st'
      = invoked st ++ map pull_command_of ran
          ++ map restartCommand (firstn n (dockerServices config)).
Proof.
  intros Hrepos E.
  destruct (handleWebhook_Return _ _ _ _ _ E)
    as (st1 & st2 & b & [Hw1 Hi1] & Hc & Hsvc & _).
  rewrite Hrepos in Hc.
  apply pull_chain_ran in Hc as (ran & Hsub & Hi).
  destruct (restartDockerServices_run config (dockerServices config) st2)
    as (sb & n & Er & Hin & _).
  rewrite Er in Hsvc. injection Hsvc as _ <-.
  exists ran, n. split; [assumption|].
  rewrite Hin, Hi, <- Hi1, <- app_assoc. reflexivity.
Qed.

(** X7. When the result of [handleWebhook] has [success] true, the pull
    command of every configured repository and then the restart command of
    every configured service have been run, each once, in the configured
    order, and nothing else. *)
Theorem handleWebhook_success_all_ran
  config (rs : list RepoConfig) (payload : JSON) st results st' :
  repositories config = map JObject rs ->
  handleWebhook config payload st = (Return results, st') ->
  res_success results = true ->
  invoked st'
    = invoked st ++ map pull_command_of rs
        ++ map restartCommand (dockerServices config).
Proof.
  intros Hrepos E Hsucc.
  destruct (handleWebhook_invoked config rs payload st results st' Hrepos E)
    as (P & n & Hi & _ & _ & Hall).
  destruct (Hall Hsucc) as [-> ->].
  now rewrite firstn_all in Hi.
Qed.

Lemma forallb_out_success_map (b : bool) (rs : list RepoConfig) :
  forallb out_success
    (map (fun r => {| out_name := name r; out_success := b |}) rs)
  = match rs with [] => true | _ :: _ => b end.
Proof.
  induction rs as [|r rs IH]; [reflexivity|].
  cbn [map forallb out_success]. rewrite IH.
  destruct b, rs; reflexivity.
Qed.

Lemma pull_chain_all_succeed config (rs : list RepoConfig) :
  forall st w1,
    runPulls (world st) rs = Some w1 ->
    exists st1,
      pull_chain config st (map JObject rs)
        (map (fun r => {| out_name := name r; out_success := true |}) rs)
        st1 /\
      world st1 = w1 /\
      invoked st1 = invoked st ++ map pull_command_of rs.
Proof.
  induction rs as [|r rs IH]; intros st w1 Hrun; cbn [runPulls] in Hrun.
  - injection Hrun as <-. exists st. simpl. rewrite app_nil_r.
    repeat split. constructor.
  - destruct (existsSync (world st) (path r)) eqn:Hex; [|discriminate].
    destruct (pullRepository_existing config r st Hex)
      as (sa & Ea & Hw & Hi).
    destruct (child_process_exec (world st) (pull_command_of r)) as [x w'].
    cbn [fst snd] in *.
    destruct (exec_error x); [discriminate|].
    rewrite <- Hw in Hrun.
    destruct (IH sa w1 Hrun) as (st1 & Hc & Hw1 & Hi1).
    exists st1. split; [|split; [assumption|]].
    + cbn [map].
      exact (pull_chain_cons config st (JObject r) true sa _ _ _ Ea Hc).
    + cbn [map]. rewrite Hi1, Hi, <- app_assoc. reflexivity.
Qed.

Lemma pull_chain_all_missing config (rs : list RepoConfig) :
  forall st,
    Forall (fun r => existsSync (world st) (path r) = false) rs ->
    exists st1,
      pull_chain config st (map JObject rs)
        (map (fun r => {| out_name := name r; out_success := false |}) rs)
        st1 /\
      agree st st1.
Proof.
  induction rs as [|r rs IH]; intros st Hall.
  - exists st. split; [constructor | apply agree_refl].
  - inversion Hall as [|? ? Hr Hrs]; subst.
    destruct (pullRepository_missing config r st Hr) as (sa & Ea & Ag).
    assert (Hrs' : Forall (fun r => existsSync (world sa) (path r) = false) rs).
    { destruct Ag as [Hw _]. now rewrite <- Hw. }
    destruct (IH sa Hrs') as (st1 & Hc & Ag1).
    exists st1. split; [|eauto using agree_trans].
    cbn [map].
    exact (pull_chain_cons config st (JObject r) false sa _ _ _ Ea Hc).
Qed.

Lemma Forall_is_object_map (rs : list RepoConfig) :
  Forall is_object (map JObject rs).
Proof. induction rs; simpl; constructor; simpl; auto. Qed.

(** The result of [handleWebhook], from a chain of pulls and the outcome
    of the batch. *)
Lemma handleWebhook_from_chain
  config (rs : list RepoConfig) (payload : JSON) st entries sa :
  repositories config = map JObject rs ->
  (forall st1, agree st st1 ->
     exists st2, pull_chain config st1 (map JObject rs) entries st2 /\
                 agree sa st2) ->
  exists st' n,
    handleWebhook config payload st
      = (Return
           {| res_repositories := entries;
              res_services :=
                [{| svc_success :=
                      match runAll (world sa)
                              (map restartCommand (dockerServices config))
                      with Some _ => true | None => false end |}];
              res_success :=
                forallb out_success entries
                && match runAll (world sa)
                           (map restartCommand (dockerServices config))
                   with Some _ => true | None => false end |}, st') /\
    invoked st'
      = invoked sa ++ map restartCommand (firstn n (dockerServices config)) /\
    (forall w, runAll (world sa) (map restartCommand (dockerServices config))
               = Some w ->
               n = length (dockerServices config) /\ world st' = w).
Proof.
  intros Hrepos Hchain.
  assert (Hobj : Forall is_object (repositories config))
    by (rewrite Hrepos; apply Forall_is_object_map).
  destruct (total_handleWebhook config payload Hobj st) as (results & st' & E).
  destruct (handleWebhook_Return _ _ _ _ _ E)
    as (st1 & st2 & b & Ag & Hc & Hsvc & Hs & Hb).
  rewrite Hrepos in Hc.
  destruct (Hchain st1 Ag) as (st2' & Hc' & [Hwa Hia]).
  destruct (pull_chain_functional _ _ _ _ _ Hc _ _ Hc') as [He <-].
  destruct (restartDockerServices_run config (dockerServices config) st2)
    as (sb & n & Er & Hin & Hn).
  rewrite Er in Hsvc. injection Hsvc as Hbv <-.
  exists sb, n. rewrite Hwa, Hia. split; [|split; assumption].
  rewrite E. f_equal. destruct results as [rr rv rsucc].
  cbn [res_repositories res_services res_success] in *.
  now subst.
Qed.

(** X8. When every configured repository is on disk and is pulled with
    success, and every service is then restarted with success,
    [handleWebhook] returns [success] true with one true entry per
    repository and the single true entry of the batch, having run every
    pull and then every restart. *)
Theorem handleWebhook_all_succeed
  config (rs : list RepoConfig) (payload : JSON) st w1 w2 :
  repositories config = map JObject rs ->
  runPulls (world st) rs = Some w1 ->
  runAll w1 (map restartCommand (dockerServices config)) = Some w2 ->
  exists st',
    handleWebhook config payload st
      = (Return
           {| res_repositories :=
                map (fun r => {| out_name := name r; out_success := true |})
                    rs;
              res_services := [{| svc_success := true |}];
              res_success := true |}, st') /\
    world st' = w2 /\
    invoked st'
      = invoked st ++ map pull_command_of rs
          ++ map restartCommand (dockerServices config).
Proof.
  intros Hrepos Hpulls Hrestarts.
  destruct (pull_chain_all_succeed config rs st w1 Hpulls)
    as (sa & Hc & Hw & Hi).
  destruct (handleWebhook_from_chain config rs payload st
              (map (fun r => {| out_name := name r; out_success := true |}) rs)
              sa Hrepos)
    as (st' & n & E & Hin & Hn).
  { intros st1 Ag. destruct (pull_chain_agree _ _ _ _ _ Hc st1 Ag)
      as (st2 & Hc2 & Ag2). now exists st2. }
  rewrite Hw, Hrestarts in E. rewrite Hw in Hn.
  destruct (Hn w2 Hrestarts) as [-> Hw2].
  rewrite forallb_out_success_map in E.
  exists st'. split; [|split; [assumption|]].
  - rewrite E. now destruct rs.
  - rewrite Hin, Hi, firstn_all, <- app_assoc. reflexivity.
Qed.

(** X9. The services are restarted whatever the pulls gave: when none of
    the configured repositories is on disk, [handleWebhook] records a false
    entry for each, runs no pull command, and still runs the restart
    command of every service; with all restarts succeeding the batch entry
    is true while [success] is false (true only if no repository is
    configured). *)
Theorem handleWebhook_restarts_after_failed_pulls
  config (rs : list RepoConfig) (payload : JSON) st w :
  repositories config = map JObject rs ->
  Forall (fun r => existsSync (world st) (path r) = false) rs ->
  runAll (world st) (map restartCommand (dockerServices config)) = Some w ->
  exists st',
    handleWebhook config payload st
      = (Return
           {| res_repositories :=
                map (fun r => {| out_name := name r; out_success := false |})
                    rs;
              res_services := [{| svc_success := true |}];
              res_success := match rs with [] => true | _ :: _ => false end |},
         st') /\
    world st' = w /\
    invoked st'
      = invoked st ++ map restartCommand (dockerServices config).
Proof.
  intros Hrepos Hmissing Hrestarts.
  destruct (pull_chain_all_missing config rs st Hmissing)
    as (sa & Hc & [Hw Hi]).
  destruct (handleWebhook_from_chain config rs payload st
              (map (fun r => {| out_name := name r; out_success := false |}) rs)
              sa Hrepos)
    as (st' & n & E & Hin & Hn).
  { intros st1 Ag. destruct (pull_chain_agree _ _ _ _ _ Hc st1 Ag)
      as (st2 & Hc2 & Ag2). now exists st2. }
  rewrite <- Hw, Hrestarts in E. rewrite <- Hw in Hn.
  destruct (Hn w Hrestarts) as [-> Hw2].
  rewrite forallb_out_success_map in E.
  exists st'. split; [|split; [assumption|]].
  - rewrite E. now destruct rs.
  - rewrite Hin, <- Hi, firstn_all. reflexivity.
Qed.

(** ** The route, case by case *)

(** Every run of the route is of one of three kinds.  The serialisation of
    the body fails (it throws, or gives [undefined] and
    [payload.substring] throws): the handler rejects.  Or the request passes
    (the header is missing or empty, or no secret is configured, or the
    signature's bytes are the expected ones) and [handleWebhook] is run.  Or
    a secret is configured, the header holds a non-empty signature whose
    bytes are not the expected ones, and nothing is run: the response is
    the 401 when the byte lengths agree, and otherwise the handler rejects
    with the [RangeError]. *)
Lemma hook_refresh_inv config (req : Request) st c st' :
  hook_refresh config req st = (c, st') ->
  (exists payload st1 ch st3,
      JSON_stringify (req_body req) = Return (Some payload) /\
      agree st st1 /\
      handleWebhook config (req_body req) st1 = (ch, st3) /\
      agree st3 st' /\
      c = Return match ch with
                 | Return results => processed results
                 | Throw e => internal_error e
                 end /\
      (truthy (x_hub_signature_256 req) = false \/
       secret config = [] \/
       exists signature,
         x_hub_signature_256 req = Some signature /\
         Buffer_from signature
         = Buffer_from (expected_signature config payload))) \/
  (agree st st' /\
   exists payload signature,
     JSON_stringify (req_body req) = Return (Some payload) /\
     x_hub_signature_256 req = Some signature /\
     signature <> [] /\ secret config <> [] /\
     Buffer_from signature
     <> Buffer_from (expected_signature config payload) /\
     c = if (length (Buffer_from signature)
             =? length (Buffer_from (expected_signature config payload)))%nat
         then Return unauthorized
         else Throw (RangeError
                       (lit "Input buffers must have the same byte length"))) \/
  (agree st st' /\
   exists e,
     c = Throw e /\
     (JSON_stringify (req_body req) = Throw e \/
      JSON_stringify (req_body req) = Return None /\
      e = TypeError (lit
            "Cannot read properties of undefined (reading 'substring')"))).
Proof.
  intros E.
  assert (Hcase : (exists payload,
                      JSON_stringify (req_body req) = Return (Some payload)) \/
                  JSON_stringify (req_body req) = Return None \/
                  (exists e, JSON_stringify (req_body req) = Throw e))
    by (destruct (JSON_stringify (req_body req)) as [[p|]|e0]; eauto).
  destruct Hcase as [[payload Hjs] | [Hjs | [e0 Hjs]]].
  2:{ right. right.
      destruct (hook_refresh_undefined_payload config req st Hjs)
        as (sx & Ag & Ex).
      rewrite E in Ex. injection Ex as -> ->.
      split; [assumption|]. eexists. split; [reflexivity|]. now right. }
  2:{ right. right.
      rewrite (hook_refresh_stringify_throws config req st e0 Hjs) in E.
      injection E as <- <-.
      split; [apply agree_refl|]. exists e0. split; [reflexivity|]. now left. }
  destruct (hook_refresh_run config req payload st Hjs) as (st1 & Ag & Hrun).
  cbv zeta in Hrun.
  assert (Hproc : forall st2 (cond : Prop),
             agree st st2 -> cond ->
             (exists c0 st3 st'0,
                 handleWebhook config (req_body req) st2 = (c0, st3) /\
                 agree st3 st'0 /\
                 hook_refresh config req st
                 = (Return match c0 with
                           | Return results => processed results
                           | Throw e => internal_error e
                           end, st'0)) ->
             exists sa ch st3,
               JSON_stringify (req_body req) = Return (Some payload) /\
               agree st sa /\
               handleWebhook config (req_body req) sa = (ch, st3) /\
               agree st3 st' /\
               c = Return match ch with
                          | Return results => processed results
                          | Throw e => internal_error e
                          end /\ cond).
  { intros st2 cond Ag2 Hcond (c0 & st3 & st'0 & Hh & Ag3 & E').
    rewrite E in E'. injection E' as -> ->.
    now exists st2, c0, st3. }
  destruct (x_hub_signature_256 req) as [[|u s]|] eqn:Hsig.
  - left. exists payload. apply (Hproc st1); auto.
  - destruct (secret config) as [|k ks] eqn:Hsecret.
    + destruct (verifySignature_no_secret config payload (u :: s) st1 Hsecret)
        as (sv & Ev & Agv).
      rewrite Ev in Hrun.
      left. exists payload.
      apply (Hproc _ _ (agree_trans _ _ _ Ag Agv)); auto.
    + assert (Hne : secret config <> []) by congruence.
      rewrite <- Hsecret in *.
      rewrite verifySignature_with_secret in Hrun by assumption.
      destruct (_ =? _)%nat eqn:Hlen.
      * destruct (str_eqb _ _) eqn:Heq.
        -- left. exists payload. apply (Hproc st1); auto.
           right. right. exists (u :: s). split; [reflexivity|].
           now apply str_eqb_eq.
        -- right. left. destruct Hrun as (st'0 & Ag' & E').
           rewrite E in E'. injection E' as -> ->.
           split; [eauto using agree_trans|].
           exists payload, (u :: s). rewrite Hlen.
           repeat split; try assumption; try discriminate.
           now apply str_eqb_neq.
      * right. left. rewrite E in Hrun. injection Hrun as -> ->.
        split; [assumption|].
        exists payload, (u :: s). rewrite Hlen.
        repeat split; try assumption; try discriminate.
        intros Hb. rewrite Hb, Nat.eqb_refl in Hlen. discriminate.
  - left. exists payload. apply (Hproc st1); auto.
Qed.

(** X10. A response with status 200 means that the pull command of every
    configured repository and then the restart command of every configured
    service have been run, each once and in the configured order, and that
    nothing else has. *)
Theorem hook_refresh_200_all_ran
  config (rs : list RepoConfig) (req : Request) st resp st' :
  repositories config = map JObject rs ->
  hook_refresh config req st = (Return resp, st') ->
  status resp = 200 ->
  invoked st'
    = invoked st ++ map pull_command_of rs
        ++ map restartCommand (dockerServices config).
Proof.
  intros Hrepos E Hstatus.
  destruct (hook_refresh_inv _ _ _ _ _ E)
    as [(payload & st1 & ch & st3 & _ & [_ Hi1] & Hh & [_ Hi3] & Hc & _)
       | [(_ & payload & signature & _ & _ & _ & _ & _ & Hc)
         | (_ & e & Hc & _)]].
  - injection Hc as ->. destruct ch as [results|e]; [|discriminate].
    cbn [processed status] in Hstatus.
    destruct (res_success results) eqn:Hsucc; [|discriminate].
    rewrite <- Hi3, Hi1.
    destruct (handleWebhook_invoked config rs _ st1 results st3 Hrepos Hh)
      as (P & n & Hi & _ & _ & Hall).
    destruct (Hall Hsucc) as [-> ->].
    now rewrite firstn_all in Hi.
  - destruct (_ =? _)%nat; [|discriminate].
    injection Hc as ->. discriminate.
  - discriminate.
Qed.

(** X11. The route answers 401 only when the body serialises, a secret
    is configured and the header holds a non-empty signature.  Whenever it
    answers 401 or its handler rejects, no command has been run and the host
    is as it was.  And the handler rejects in three cases only:
    [JSON.stringify(req.body)] throws (with that error); it gives
    [undefined], and [payload.substring] throws a [TypeError]; or a secret
    is configured and the non-empty signature has not the byte length of the
    expected string, and [crypto.timingSafeEqual] throws its
    [RangeError]. *)
Theorem hook_refresh_refusal config (req : Request) st c st' :
  hook_refresh config req st = (c, st') ->
  c = Return unauthorized \/ (exists e, c = Throw e) ->
  world st' = world st /\ invoked st' = invoked st /\
  (c = Return unauthorized ->
   secret config <> [] /\ truthy (x_hub_signature_256 req) = true /\
   exists payload, JSON_stringify (req_body req) = Return (Some payload)) /\
  (forall e, c = Throw e ->
     JSON_stringify (req_body req) = Throw e \/
     (JSON_stringify (req_body req) = Return None /\
      e = TypeError (lit
            "Cannot read properties of undefined (reading 'substring')")) \/
     (exists payload signature,
         JSON_stringify (req_body req) = Return (Some payload) /\
         secret config <> [] /\
         x_hub_signature_256 req = Some signature /\ signature <> [] /\
         e = RangeError (lit "Input buffers must have the same byte length") /\
         length (Buffer_from signature)
         <> length (Buffer_from (expected_signature config payload)))).
Proof.
  intros E Hc.
  destruct (hook_refresh_inv _ _ _ _ _ E)
    as [(payload & st1 & ch & st3 & _ & _ & _ & _ & -> & _)
       | [([Hw Hi] & payload & signature & Hjs & Hsig & Hne & Hsecret
           & Hwrong & ->)
         | ([Hw Hi] & e0 & -> & Hcause)]].
  - exfalso. destruct Hc as [Hc | [e Hc]]; [|discriminate].
    injection Hc as Hc. destruct ch; discriminate.
  - split; [congruence|]. split; [congruence|]. split.
    + intros _. split; [assumption|]. split.
      * rewrite Hsig. now destruct signature.
      * now exists payload.
    + intros e He. right. right. exists payload, signature.
      destruct (_ =? _)%nat eqn:Hlen; [discriminate|].
      injection He as <-.
      repeat split; try assumption. now apply Nat.eqb_neq.
  - split; [congruence|]. split; [congruence|]. split.
    + intros H. discriminate H.
    + intros e He. injection He as <-.
      destruct Hcause as [Ht | [Hn ->]]; [now left | right; left; now split].
Qed.

(** What it is for a request to be processed. *)
Lemma hook_refresh_passes config (req : Request) (payload : jsstring) st :
  JSON_stringify (req_body req) = Return (Some payload) ->
  (truthy (x_hub_signature_256 req) = false \/
   secret config = [] \/
   x_hub_signature_256 req = Some (expected_signature config payload)) ->
  exists st1 ch st3 st',
    agree st st1 /\
    handleWebhook config (req_body req) st1 = (ch, st3) /\
    agree st3 st' /\
    hook_refresh config req st
      = (Return match ch with
                | Return results => processed results
                | Throw e => internal_error e
                end, st').
Proof.
  intros Hjs Hpass.
  destruct (hook_refresh config req st) as [c st'] eqn:E.
  destruct (hook_refresh_inv _ _ _ _ _ E)
    as [(p & st1 & ch & st3 & _ & Ag1 & Hh & Ag3 & -> & _)
       | [(_ & p & signature & Hp & Hsig & Hne & Hsecret & Hwrong & _)
         | (_ & e & _ & [Ht | [Hn _]])]].
  - now exists st1, ch, st3, st'.
  - exfalso. rewrite Hjs in Hp. injection Hp as <-.
    destruct Hpass as [Hf | [Hs | He]].
    + rewrite Hsig in Hf. destruct signature; [contradiction | discriminate].
    + contradiction.
    + rewrite Hsig in He. injection He as ->. contradiction.
  - congruence.
  - congruence.
Qed.

(** X12. With no secret configured, every request whose body serialises
    is processed, whatever its signature header holds: the route does not
    answer 401 and its handler does not reject, [handleWebhook] is run and
    the response is built from its completion. *)
Theorem hook_refresh_without_secret
  config (req : Request) (payload : jsstring) st :
  secret config = [] ->
  JSON_stringify (req_body req) = Return (Some payload) ->
  exists st1 ch st3 st',
    agree st st1 /\
    handleWebhook config (req_body req) st1 = (ch, st3) /\
    agree st3 st' /\
    hook_refresh config req st
      = (Return match ch with
                | Return results => processed results
                | Throw e => internal_error e
                end, st').
Proof. intros H Hjs. apply (hook_refresh_passes config req payload); auto. Qed.

(** X13. A request whose body serialises and whose signature header is
    missing or is the empty string is processed without any check of a
    signature, whether or not a secret is configured. *)
Theorem hook_refresh_without_truthy_signature
  config (req : Request) (payload : jsstring) st :
  truthy (x_hub_signature_256 req) = false ->
  JSON_stringify (req_body req) = Return (Some payload) ->
  exists st1 ch st3 st',
    agree st st1 /\
    handleWebhook config (req_body req) st1 = (ch, st3) /\
    agree st3 st' /\
    hook_refresh config req st
      = (Return match ch with
                | Return results => processed results
                | Throw e => internal_error e
                end, st').
Proof. intros H Hjs. apply (hook_refresh_passes config req payload); auto. Qed.

(** X14. A request signed with the expected string for its serialised
    body is processed: [handleWebhook] is run and the response is built
    from its completion. *)
Theorem hook_refresh_signed_request
  config (req : Request) (payload : jsstring) st :
  JSON_stringify (req_body req) = Return (Some payload) ->
  x_hub_signature_256 req = Some (expected_signature config payload) ->
  exists st1 ch st3 st',
    agree st st1 /\
    handleWebhook config (req_body req) st1 = (ch, st3) /\
    agree st3 st' /\
    hook_refresh config req st
      = (Return match ch with
                | Return results => processed results
                | Throw e => internal_error e
                end, st').
Proof. intros Hjs H. apply (hook_refresh_passes config req payload); auto. Qed.

(** ** The console *)

Lemma writes_ret {A : Type} (P : Level -> Prop) (a : A) : writes P (ret a).
Proof. intros st. exists []. now rewrite app_nil_r. Qed.

Lemma writes_throw {A : Type} (P : Level -> Prop) (e : JSError) :
  writes P (@throw _ A e).
Proof. intros st. exists []. now rewrite app_nil_r. Qed.

Lemma writes_bind {A B : Type} (P : Level -> Prop) (m : M A) (k : A -> M B) :
  writes P m -> (forall a, writes P (k a)) -> writes P (bind m k).
Proof.
  intros Hm Hk st. unfold bind.
  destruct (Hm st) as (l1 & E1 & F1).
  destruct (m st) as [[a|e] st1]; cbn [snd] in *.
  - destruct (Hk a st1) as (l2 & E2 & F2).
    exists (l1 ++ l2). split.
    + now rewrite E2, E1, app_assoc.
    + apply Forall_app. now split.
  - now exists l1.
Qed.

Lemma writes_try_catch {A : Type} (P : Level -> Prop)
  (m : M A) (h : JSError -> M A) :
  writes P m -> (forall e, writes P (h e)) -> writes P (try_catch m h).
Proof.
  intros Hm Hh st. unfold try_catch.
  destruct (Hm st) as (l1 & E1 & F1).
  destruct (m st) as [[a|e] st1]; cbn [snd] in *.
  - now exists l1.
  - destruct (Hh e st1) as (l2 & E2 & F2).
    exists (l1 ++ l2). split.
    + now rewrite E2, E1, app_assoc.
    + apply Forall_app. now split.
Qed.

Lemma writes_if {A : Type} (P : Level -> Prop) (c : bool) (m1 m2 : M A) :
  writes P m1 -> writes P m2 -> writes P (if c then m1 else m2).
Proof. now destruct c. Qed.

Lemma writes_console_write (P : Level -> Prop) (l : Level) (line : jsstring) :
  P l -> writes P (console_write l line).
Proof.
  intros Hl st. exists [(l, line)]. split; [reflexivity|].
  now constructor.
Qed.

Lemma writes_lift {A : Type} (P : Level -> Prop) (c : Completion A) :
  writes P (lift c).
Proof. intros st. exists []. now rewrite app_nil_r. Qed.

Lemma writes_fs_existsSync (P : Level -> Prop) (p : option jsstring) :
  writes P (fs_existsSync p).
Proof. intros st. exists []. now rewrite app_nil_r. Qed.

Lemma writes_execAsync (P : Level -> Prop) (command : jsstring) :
  writes P (execAsync command).
Proof.
  intros st. exists []. rewrite execAsync_run, app_nil_r. now split.
Qed.

Lemma writes_timingSafeEqual (P : Level -> Prop) (a b : list N) :
  writes P (timingSafeEqual a b).
Proof.
  unfold timingSafeEqual.
  apply writes_if; [apply writes_ret | apply writes_throw].
Qed.

Lemma writes_forOf {A S : Type} (P : Level -> Prop)
  (xs : list A) (step : A -> S -> M S) :
  (forall x s, writes P (step x s)) -> forall s, writes P (forOf xs step s).
Proof.
  intros Hstep. induction xs as [|x xs IH]; intros s; simpl.
  - apply writes_ret.
  - apply writes_bind; auto.
Qed.

Lemma writes_log_info config (message : jsstring) :
  writes (fun l => enabled config l = true) (log_info config message).
Proof.
  unfold log_info.
  destruct (str_eqb (logLevel config) (lit "info")
            || str_eqb (logLevel config) (lit "debug")) eqn:E.
  - now apply writes_console_write.
  - apply writes_ret.
Qed.

Lemma writes_log_error config (message : jsstring) :
  writes (fun l => enabled config l = true) (log_error message).
Proof. now apply writes_console_write. Qed.

Lemma writes_log_debug config (message : jsstring) :
  writes (fun l => enabled config l = true) (log_debug config message).
Proof.
  unfold log_debug.
  destruct (str_eqb (logLevel config) (lit "debug")) eqn:E.
  - now apply writes_console_write.
  - apply writes_ret.
Qed.

Create HintDb console.

#[local] Hint Resolve writes_ret writes_throw writes_bind writes_try_catch
  writes_if writes_fs_existsSync writes_execAsync writes_timingSafeEqual
  writes_forOf writes_log_info writes_log_error writes_log_debug : console.

Lemma writes_pullRepository config (repo : RepoEntry) :
  writes (fun l => enabled config l = true) (pullRepository config repo).
Proof. destruct repo; unfold pullRepository; auto 12 with console. Qed.

Lemma writes_restartDockerServices config (services : list jsstring) :
  writes (fun l => enabled config l = true)
    (restartDockerServices config services).
Proof.
  destruct services; unfold restartDockerServices, restartStep;
    auto 12 with console.
Qed.

Lemma writes_handleWebhook config (payload : JSON) :
  writes (fun l => enabled config l = true) (handleWebhook config payload).
Proof.
  unfold handleWebhook.
  apply writes_bind; [auto with console|]. intros _.
  apply writes_bind.
  - apply writes_forOf. intros repo results. unfold pullStep.
    apply writes_bind; [apply writes_pullRepository|]. intros success.
    destruct repo; simpl; auto with console.
  - intros results.
    apply writes_bind; [apply writes_restartDockerServices|].
    auto with console.
Qed.

Lemma writes_verifySignature config (payload signature : jsstring) :
  writes (fun l => enabled config l = true)
    (verifySignature config payload signature).
Proof.
  unfold verifySignature. destruct (secret config); auto with console.
Qed.

(** X15. All the route writes goes through the [log] object: a run of the
    route only appends lines to the console, and every line it appends is
    of a level that [config.logLevel] lets through (ERROR always, INFO at
    the levels [info] and [debug], DEBUG at the level [debug] only).  At any
    other level, only errors are written. *)
Theorem hook_refresh_console config (req : Request) st :
  exists lines,
    console (snd (hook_refresh config req st)) = console st ++ lines /\
    Forall (fun l => enabled config (fst l) = true) lines.
Proof.
  revert st. change (writes (fun l => enabled config l = true)
                       (hook_refresh config req)).
  unfold hook_refresh. cbv zeta.
  apply writes_bind; [apply writes_lift | intros [payload|]].
  2:{ auto 6 with console. }
  do 3 (apply writes_bind; [auto with console | intros _]).
  apply writes_bind.
  - destruct (x_hub_signature_256 req) as [[|u s]|]; auto with console.
    apply writes_bind; [apply writes_verifySignature | auto with console].
  - intros invalid. apply writes_if; [auto with console|].
    apply writes_try_catch; [|auto with console].
    apply writes_bind; [apply writes_handleWebhook | auto with console].
Qed.

(** ** The log level *)

Lemma alike_ret {A : Type} (a : A) : alike (ret a) (ret a).
Proof. intros st1 st2 Ag. now split. Qed.

Lemma alike_blind {A : Type} (m : M A) : blind m -> alike m m.
Proof. intros H. exact H. Qed.

Lemma alike_bind {A B : Type} (m1 m2 : M A) (k1 k2 : A -> M B) :
  alike m1 m2 -> (forall a, alike (k1 a) (k2 a)) ->
  alike (bind m1 k1) (bind m2 k2).
Proof.
  intros Hm Hk st1 st2 Ag. unfold bind.
  destruct (Hm st1 st2 Ag) as [Ef As].
  destruct (m1 st1) as [[a1|e1] s1], (m2 st2) as [[a2|e2] s2];
    simpl in Ef, As; try discriminate.
  - injection Ef as ->. now apply Hk.
  - injection Ef as ->. now split.
Qed.

Lemma alike_try_catch {A : Type} (m1 m2 : M A) (h1 h2 : JSError -> M A) :
  alike m1 m2 -> (forall e, alike (h1 e) (h2 e)) ->
  alike (try_catch m1 h1) (try_catch m2 h2).
Proof.
  intros Hm Hh st1 st2 Ag. unfold try_catch.
  destruct (Hm st1 st2 Ag) as [Ef As].
  destruct (m1 st1) as [[a1|e1] s1], (m2 st2) as [[a2|e2] s2];
    simpl in Ef, As; try discriminate.
  - injection Ef as ->. now split.
  - injection Ef as ->. now apply Hh.
Qed.

Lemma alike_if {A : Type} (c : bool) (m1 m2 n1 n2 : M A) :
  alike m1 m2 -> alike n1 n2 ->
  alike (if c then m1 else n1) (if c then m2 else n2).
Proof. now destruct c. Qed.

Lemma alike_silent (m1 m2 : M unit) : silent m1 -> silent m2 -> alike m1 m2.
Proof.
  intros H1 H2 st1 st2 Ag.
  destruct (H1 st1) as ([] & s1 & E1 & A1).
  destruct (H2 st2) as ([] & s2 & E2 & A2).
  rewrite E1, E2. split; [reflexivity|]. cbn [snd].
  eauto using agree_trans, agree_sym.
Qed.

Lemma alike_forOf {A S : Type} (xs : list A) (step1 step2 : A -> S -> M S) :
  (forall x s, alike (step1 x s) (step2 x s)) ->
  forall s, alike (forOf xs step1 s) (forOf xs step2 s).
Proof.
  intros Hstep. induction xs as [|x xs IH]; intros s; simpl.
  - apply alike_ret.
  - apply alike_bind; auto.
Qed.

Lemma alike_log_info c1 c2 (message : jsstring) :
  alike (log_info c1 message) (log_info c2 message).
Proof. apply alike_silent; auto with hook. Qed.

Lemma alike_log_debug c1 c2 (message : jsstring) :
  alike (log_debug c1 message) (log_debug c2 message).
Proof. apply alike_silent; auto with hook. Qed.

Lemma blind_lift {A : Type} (c : Completion A) : blind (lift c).
Proof. intros st1 st2 Ag. now split. Qed.

Lemma blind_timingSafeEqual (a b : list N) : blind (timingSafeEqual a b).
Proof. unfold timingSafeEqual. auto with hook. Qed.

Create HintDb loglevel.

#[local] Hint Resolve alike_ret alike_bind alike_try_catch alike_if
  alike_forOf alike_log_info alike_log_debug : loglevel.
#[local] Hint Extern 5 (alike ?m ?m) =>
  (apply alike_blind; auto 8 with hook) : loglevel.

Lemma alike_pullRepository c1 c2 (repo : RepoEntry) :
  alike (pullRepository c1 repo) (pullRepository c2 repo).
Proof. destruct repo; unfold pullRepository; auto 12 with loglevel. Qed.

Lemma alike_restartDockerServices c1 c2 (services : list jsstring) :
  alike (restartDockerServices c1 services)
        (restartDockerServices c2 services).
Proof.
  destruct services; unfold restartDockerServices, restartStep;
    auto 12 with loglevel.
Qed.

Lemma alike_handleWebhook c1 c2 (payload : JSON) :
  repositories c1 = repositories c2 ->
  dockerServices c1 = dockerServices c2 ->
  alike (handleWebhook c1 payload) (handleWebhook c2 payload).
Proof.
  intros Hr Hs. unfold handleWebhook. rewrite Hr, Hs.
  apply alike_bind; [auto with loglevel|]. intros _.
  apply alike_bind.
  - apply alike_forOf. intros repo results. unfold pullStep.
    apply alike_bind; [apply alike_pullRepository|]. intros success.
    unfold get_name. destruct repo; auto 8 with loglevel.
  - intros results.
    apply alike_bind; [apply alike_restartDockerServices|].
    auto with loglevel.
Qed.

Lemma alike_verifySignature c1 c2 (payload signature : jsstring) :
  secret c1 = secret c2 ->
  alike (verifySignature c1 payload signature)
        (verifySignature c2 payload signature).
Proof.
  intros Hs. unfold verifySignature. rewrite Hs.
  destruct (secret c2); [auto with loglevel|].
  apply alike_blind, blind_timingSafeEqual.
Qed.

(** X16. [LOG_LEVEL] changes nothing but the console: under two
    configurations that differ at most in [logLevel], the route completes
    alike on every request (same response, or same error), runs the same
    commands and leaves the host in the same state. *)
Theorem hook_refresh_logLevel_irrelevant c1 c2 (req : Request) st :
  same_but_logLevel c1 c2 ->
  fst (hook_refresh c1 req st) = fst (hook_refresh c2 req st) /\
  world (snd (hook_refresh c1 req st)) = world (snd (hook_refresh c2 req st)) /\
  invoked (snd (hook_refresh c1 req st))
  = invoked (snd (hook_refresh c2 req st)).
Proof.
  intros (Hsecret & Hrepos & Hservices).
  assert (H : alike (hook_refresh c1 req) (hook_refresh c2 req)).
  { unfold hook_refresh. cbv zeta.
    apply alike_bind; [apply alike_blind, blind_lift | intros [payload|]].
    2:{ do 2 (apply alike_bind; [auto with loglevel | intros _]).
        apply alike_blind, blind_throw. }
    do 3 (apply alike_bind; [auto with loglevel | intros _]).
    apply alike_bind.
    - destruct (x_hub_signature_256 req) as [[|u s]|]; auto with loglevel.
      apply alike_bind; [now apply alike_verifySignature|].
      auto with loglevel.
    - intros invalid. apply alike_if; [auto with loglevel|].
      apply alike_try_catch.
      + apply alike_bind; [now apply alike_handleWebhook|].
        auto with loglevel.
      + auto with loglevel. }
  destruct (H st st (agree_refl st)) as [Ef [Hw Hi]]. auto.
Qed.

(** ** A [null] among the repositories *)

(** X17. A [null] element of [config.repositories] makes [handleWebhook]
    throw a [TypeError] when the loop reaches it: the repositories before it
    have been attempted, no repository after it is, and no service is
    restarted. *)
Theorem handleWebhook_null_entry
  config (pre : list RepoConfig) (post : list RepoEntry) (payload : JSON) st :
  repositories config = map JObject pre ++ JNull :: post ->
  exists st' P,
    handleWebhook config payload st
      = (Throw (TypeError (lit
           "Cannot destructure property 'name' of 'repoConfig' as it is null.")),
         st') /\
    invoked st' = invoked st ++ P /\
    incl P (map pull_command_of pre) /\
    (length P <= length pre)%nat.
Proof.
  intros Hrepos. unfold handleWebhook. skip_silent. rewrite Hrepos.
  destruct (total_forOf_pullStep config (map JObject pre)
              (Forall_is_object_map pre) emptyResults st0)
    as (acc & st1 & El).
  assert (Eloop :
            forOf (map JObject pre ++ JNull :: post) (pullStep config)
              emptyResults st0
            = (Throw (TypeError (lit
                 "Cannot destructure property 'name' of 'repoConfig' as it is null.")),
               st1)).
  { rewrite forOf_app, (bind_Return _ _ _ _ _ El). reflexivity. }
  rewrite (bind_Throw _ _ _ _ _ Eloop).
  apply forOf_pullStep_Return in El as (entries & Hc & _).
  apply pull_chain_commands in Hc as (P & Hi & Hincl & Hlen & _).
  exists st1, P. destruct Ag as [_ Hi0].
  repeat split; try assumption. congruence.
Qed.
End Properties.

(** * The program on the concrete host *)

#[local] Existing Instance Sim.host.

(** ** The digest *)

Example sha256_abc :
  Crypto.hex (Crypto.sha256 (Buffer_from (lit "abc")))
  = lit "ba7816bf8f01cfea414140de5dae2223b00361a396177a9cb410ff61f20015ad".
Proof. vm_compute. reflexivity. Qed.

Example hmac_sha256_rfc4231_case2 :
  Crypto.createHmac_hex (lit "Jefe") (lit "what do ya want for nothing?")
  = lit "5bdcc146bf60754e6a042426089575c75a003f089d2739839dec58b964ec3843".
Proof. vm_compute. reflexivity. Qed.

Example hmac_sha256_long_key :
  Crypto.createHmac_hex (repeat 97 100%nat) (repeat 98 200%nat)
  = lit "b029e8b4b0f16b91f9d93f78649e76e6f6c4f38814a23b64aa325fd9797e3e31".
Proof. vm_compute. reflexivity. Qed.

Example Buffer_from_utf8 :
  Buffer_from [0xE9; 0x20AC; 0xD83D; 0xDE00; 0xD800; 0x41]
  = [0xC3; 0xA9; 0xE2; 0x82; 0xAC; 0xF0; 0x9F; 0x98; 0x80; 0xEF; 0xBF; 0xBD;
     0x41].
Proof. vm_compute. reflexivity. Qed.

(** ** Requests against a configured secret *)

(** A request with the right signature is processed. *)
Example hook_refresh_good_signature :
  fst (hook_refresh Example.config (Example.request_with Example.good_signature)
         Example.st0)
  = Return (processed
              {| res_repositories :=
                   [{| out_name := Some (lit "app"); out_success := true |}];
                 res_services := [{| svc_success := true |}];
                 res_success := true |}).
Proof. vm_compute. reflexivity. Qed.

(** A wrong signature of the expected length is answered with 401, and no
    command is run. *)
Example hook_refresh_wrong_signature :
  fst (hook_refresh Example.config
         (Example.request_with Example.wrong_signature) Example.st0)
  = Return unauthorized /\
  invoked (snd (hook_refresh Example.config
                  (Example.request_with Example.wrong_signature) Example.st0))
  = [].
Proof. split; vm_compute; reflexivity. Qed.

(** C1. With the secret [s3cr3t] configured, a request that has no
    [x-hub-signature-256] header is not answered with 401: the signature is
    not checked, the repository is pulled, the service is restarted and the
    response is the 200 of a processed webhook. *)
Theorem hook_refresh_unsigned_request_is_processed :
  secret Example.config = lit "s3cr3t" /\
  x_hub_signature_256 Example.unsigned_request = None /\
  fst (hook_refresh Example.config Example.unsigned_request Example.st0)
  = Return {| status := 200;
              body :=
                ResultBody (lit "Webhook processed successfully")
                  {| res_repositories :=
                       [{| out_name := Some (lit "app");
                           out_success := true |}];
                     res_services := [{| svc_success := true |}];
                     res_success := true |} |} /\
  invoked (snd (hook_refresh Example.config Example.unsigned_request
                  Example.st0))
  = [pullCommand (Some (lit "/srv/app")) (lit "main");
     restartCommand (lit "web")].
Proof. split; [|split; [|split]]; vm_compute; reflexivity. Qed.

(** C2. With a secret configured, [verifySignature] on the signature
    [sha256=bad], ten bytes against the seventy-one of the expected string,
    does not return false: it throws the [RangeError] of
    [crypto.timingSafeEqual]. *)
Theorem verifySignature_short_signature_throws :
  length (Buffer_from Example.short_signature) = 10%nat /\
  length (Buffer_from (expected_signature Example.config Example.payload))
  = 71%nat /\
  fst (verifySignature Example.config Example.payload Example.short_signature
         Example.st0)
  = Throw (RangeError (lit "Input buffers must have the same byte length")).
Proof. split; [|split]; vm_compute; reflexivity. Qed.

(** C3. With a secret configured, the request whose signature header is
    [sha256=bad] is not answered with 401: the [RangeError] thrown by the
    comparison escapes the handler, whose promise rejects before any
    response is sent.  No command is run. *)
Theorem hook_refresh_short_signature_rejects :
  fst (hook_refresh Example.config
         (Example.request_with Example.short_signature) Example.st0)
  = Throw (RangeError (lit "Input buffers must have the same byte length")) /\
  invoked (snd (hook_refresh Example.config
                  (Example.request_with Example.short_signature) Example.st0))
  = [].
Proof. split; vm_compute; reflexivity. Qed.

(** ** Instances of the theorems *)

Lemma handleWebhook_one_entry_per_repository_witness :
  Forall is_object (repositories Example.config_no_secret) /\
  exists results st' st1 st2,
    handleWebhook Example.config_no_secret Example.body Example.st0
      = (Return results, st') /\
    agree Example.st0 st1 /\
    pull_chain Example.config_no_secret st1
      (repositories Example.config_no_secret) (res_repositories results) st2 /\
    length (res_repositories results)
      = length (repositories Example.config_no_secret) /\
    map out_name (res_repositories results)
      = map entry_name (repositories Example.config_no_secret) /\
    (forall pre repo post,
        repositories Example.config_no_secret = pre ++ repo :: post ->
        exists sa success sb,
          pullRepository Example.config_no_secret repo sa
            = (Return success, sb) /\
          nth_error (res_repositories results) (length pre)
            = Some {| out_name := entry_name repo; out_success := success |}).
Proof.
  assert (H : Forall is_object (repositories Example.config_no_secret))
    by (repeat constructor).
  split; [exact H|].
  apply (@handleWebhook_one_entry_per_repository Sim.host
           Example.config_no_secret Example.body Example.st0 H).
Defined.

Lemma restartDockerServices_short_circuit_witness :
  runAll Example.disk (map restartCommand [lit "web"]) = Some Example.disk /\
  exists st',
    restartDockerServices Example.config_no_secret
      ([lit "web"] ++ lit "api" :: [lit "db"]) Example.st0
      = (Return false, st') /\
    invoked st'
      = invoked Example.st0 ++ map restartCommand [lit "web"]
          ++ [restartCommand (lit "api")] /\
    world st'
      = snd (child_process_exec Example.disk (restartCommand (lit "api"))).
Proof.
  split; [vm_compute; reflexivity|].
  apply (@restartDockerServices_short_circuit Sim.host Example.config_no_secret
           [lit "web"] (lit "api") [lit "db"] Example.st0 Example.disk
           (lit "Command failed: " ++ restartCommand (lit "api")));
    vm_compute; reflexivity.
Defined.

Lemma handleWebhook_success_is_conjunction_witness :
  fst (handleWebhook Example.config_no_secret Example.body Example.st0)
    = Return Example.results_no_secret /\
  res_success Example.results_no_secret
    = forallb out_success (res_repositories Example.results_no_secret)
      && forallb svc_success (res_services Example.results_no_secret).
Proof.
  assert (E : fst (handleWebhook Example.config_no_secret Example.body
                     Example.st0)
              = Return Example.results_no_secret)
    by (vm_compute; reflexivity).
  split; [exact E|].
  apply (@handleWebhook_success_is_conjunction Sim.host
           Example.config_no_secret Example.body Example.st0
           Example.results_no_secret
           (snd (handleWebhook Example.config_no_secret Example.body
                   Example.st0))).
  rewrite <- E. apply surjective_pairing.
Defined.

Lemma verifySignature_without_secret_witness :
  secret Example.config_no_secret = [] /\
  fst (verifySignature Example.config_no_secret Example.payload
         Example.short_signature Example.st0)
  = Return true.
Proof.
  split; [reflexivity|].
  destruct (@verifySignature_without_secret Sim.host Example.config_no_secret
              Example.payload Example.short_signature Example.st0 eq_refl)
    as [E _].
  rewrite E. reflexivity.
Defined.

Lemma pullRepository_missing_path_witness :
  existsSync Example.disk (path Example.gone) = false /\
  exists st',
    pullRepository Example.config (JObject Example.gone) Example.st0
      = (Return false, st') /\
    world st' = Example.disk /\ invoked st' = [].
Proof.
  split; [reflexivity|].
  exact (proj1 (@pullRepository_missing_path Sim.host Example.config
                  Example.gone Example.st0 eq_refl)).
Defined.

Lemma handleWebhook_never_throws_witness :
  Forall is_object (repositories Example.config) /\
  exists results st',
    handleWebhook Example.config Example.body Example.st0
    = (Return results, st').
Proof.
  assert (H : Forall is_object (repositories Example.config))
    by (repeat constructor).
  split; [exact H|].
  apply (@handleWebhook_never_throws Sim.host Example.config H).
Defined.

(** ** A path that is not a directory *)

(** C8. The repository [notes] is configured with the path of a regular
    file: the path is not an existing directory, yet it passes the guard
    [fs.existsSync], which the source comments as the check that the
    directory exists.  [pullRepository] does not fail before any command:
    it hands [cd "/srv/notes.txt" && git pull origin main] to the shell,
    and it is the failure of that command that makes the outcome false. *)
Theorem pullRepository_regular_file :
  is_directory Example.disk (path Example.notes) = false /\
  fst (pullRepository Example.config (JObject Example.notes) Example.st0)
  = Return false /\
  invoked (snd (pullRepository Example.config (JObject Example.notes)
                  Example.st0))
  = [pullCommand (Some (lit "/srv/notes.txt")) (lit "main")].
Proof. split; [|split]; vm_compute; reflexivity. Qed.

(** So it does not hold of the code that every path that is not an existing
    directory makes [pullRepository] fail before any command is run. *)
Lemma pullRepository_regular_file_runs_command :
  ~ (forall (host : Host) (config : Config) (r : RepoConfig) (st : State),
        is_directory (world st) (path r) = false ->
        exists st',
          pullRepository config (JObject r) st = (Return false, st') /\
          invoked st' = invoked st).
Proof.
  intros H.
  destruct (H Sim.host Example.config Example.notes Example.st0 eq_refl)
    as (st' & E & Hi).
  apply (f_equal (fun p => invoked (snd p))) in E. cbn [snd] in E.
  rewrite Hi in E. vm_compute in E. discriminate E.
Qed.

(** A [null] among the configured repositories is what reaches the [catch]
    branch of the route. *)
Example hook_refresh_null_repository :
  fst (hook_refresh (with_repositories Example.config [JNull])
         Example.unsigned_request Example.st0)
  = Return (internal_error
              (TypeError (lit
                 "Cannot destructure property 'name' of 'repoConfig' as it is null."))).
Proof. vm_compute. reflexivity. Qed.

(** ** Bodies that do not serialise *)

(** A body too deep for [JSON.stringify]: the handler rejects with the
    error of the serialisation before it has written a line, although the
    request is unsigned.  An [undefined] body: it rejects at
    [payload.substring], after the first log line, at a level at which the
    preview would not be written. *)
Example hook_refresh_deep_body :
  fst (hook_refresh Example.config Example.deep_request Example.st0)
  = Throw (RangeError (lit "Maximum call stack size exceeded")) /\
  console (snd (hook_refresh Example.config Example.deep_request
                  Example.st0)) = [] /\
  invoked (snd (hook_refresh Example.config Example.deep_request
                  Example.st0)) = [].
Proof. split; [|split]; vm_compute; reflexivity. Qed.

Example hook_refresh_absent_body :
  fst (hook_refresh Example.config Example.absent_request Example.st0)
  = Throw (TypeError (lit
      "Cannot read properties of undefined (reading 'substring')")) /\
  console (snd (hook_refresh Example.config Example.absent_request
                  Example.st0))
  = [(INFO, lit "Received webhook request")] /\
  invoked (snd (hook_refresh Example.config Example.absent_request
                  Example.st0)) = [].
Proof. split; [|split]; vm_compute; reflexivity. Qed.

(** ** Instances of the further properties *)

Lemma pair_of_fst {A B : Type} (p : A * B) (a : A) :
  fst p = a -> p = (a, snd p).
Proof. intros <-. apply surjective_pairing. Qed.

Lemma verifySignature_accepts_expected_witness :
  verifySignature Example.config Example.payload
    (expected_signature Example.config Example.payload) Example.st0
  = (Return true, Example.st0).
Proof.
  apply (@verifySignature_accepts_expected Sim.host Example.config
           Example.payload Example.st0).
  discriminate.
Defined.

Lemma verifySignature_true_iff_witness :
  isASCII (expected_signature Example.config Example.payload) = true /\
  (fst (verifySignature Example.config Example.payload
          Example.wrong_signature Example.st0) = Return true
   <-> Example.wrong_signature
       = expected_signature Example.config Example.payload).
Proof.
  assert (H : isASCII (expected_signature Example.config Example.payload)
              = true) by (vm_compute; reflexivity).
  split; [exact H|].
  apply (@verifySignature_true_iff Sim.host Example.config Example.payload
           Example.wrong_signature Example.st0); [discriminate | exact H].
Defined.

Lemma health_hasSecret_false_iff_witness :
  hasSecret (health_config
               (get_health Example.config_no_secret
                  (lit "2025-01-01T00:00:00.000Z"))) = false /\
  fst (verifySignature Example.config_no_secret Example.payload
         Example.short_signature Example.st0) = Return true.
Proof.
  split; [reflexivity|].
  apply (proj1 (@health_hasSecret_false_iff Sim.host Example.config_no_secret
                  (lit "2025-01-01T00:00:00.000Z") Example.st0)).
  reflexivity.
Defined.

Lemma pullRepository_existing_path_witness :
  existsSync Example.disk (path Example.app) = true /\
  exists st',
    pullRepository Example.config (JObject Example.app) Example.st0
      = (Return true, st') /\
    world st' = Example.disk /\
    invoked st' = [pull_command_of Example.app].
Proof.
  split; [reflexivity|].
  exact (@pullRepository_existing_path Sim.host Example.config Example.app
           Example.st0 eq_refl).
Defined.

Lemma restartDockerServices_outcome_witness :
  exists st' n,
    restartDockerServices Example.config_no_secret
      (dockerServices Example.config_no_secret) Example.st0
      = (Return false, st') /\
    invoked st'
      = map restartCommand
          (firstn n (dockerServices Example.config_no_secret)).
Proof.
  destruct (@restartDockerServices_outcome Sim.host Example.config_no_secret
              (dockerServices Example.config_no_secret) Example.st0)
    as (st' & n & E & Hi & _).
  exists st', n. split; [exact E | exact Hi].
Defined.

Lemma handleWebhook_commands_witness :
  exists ran n,
    subsequence ran [Example.gone; Example.app] /\
    invoked (snd (handleWebhook Example.config_no_secret Example.body
                    Example.st0))
      = map pull_command_of ran
          ++ map restartCommand
               (firstn n (dockerServices Example.config_no_secret)).
Proof.
  apply (@handleWebhook_commands Sim.host Example.config_no_secret
           [Example.gone; Example.app] Example.body Example.st0
           Example.results_no_secret
           (snd (handleWebhook Example.config_no_secret Example.body
                   Example.st0))).
  - reflexivity.
  - apply pair_of_fst. vm_compute. reflexivity.
Defined.

Lemma handleWebhook_success_all_ran_witness :
  invoked (snd (handleWebhook Example.config_ok Example.body Example.st0))
  = [pull_command_of Example.app; restartCommand (lit "web");
     restartCommand (lit "db")].
Proof.
  apply (@handleWebhook_success_all_ran Sim.host Example.config_ok
           [Example.app] Example.body Example.st0 Example.results_ok
           (snd (handleWebhook Example.config_ok Example.body Example.st0))).
  - reflexivity.
  - apply pair_of_fst. vm_compute. reflexivity.
  - reflexivity.
Defined.

Lemma handleWebhook_all_succeed_witness :
  runPulls Example.disk [Example.app] = Some Example.disk /\
  runAll Example.disk (map restartCommand (dockerServices Example.config_ok))
  = Some Example.disk /\
  exists st',
    handleWebhook Example.config_ok Example.body Example.st0
      = (Return Example.results_ok, st') /\
    world st' = Example.disk /\
    invoked st'
      = [pull_command_of Example.app; restartCommand (lit "web");
         restartCommand (lit "db")].
Proof.
  assert (H1 : runPulls Example.disk [Example.app] = Some Example.disk)
    by (vm_compute; reflexivity).
  assert (H2 : runAll Example.disk
                 (map restartCommand (dockerServices Example.config_ok))
               = Some Example.disk)
    by (vm_compute; reflexivity).
  split; [exact H1|]. split; [exact H2|].
  exact (@handleWebhook_all_succeed Sim.host Example.config_ok [Example.app]
           Example.body Example.st0 Example.disk Example.disk eq_refl H1 H2).
Defined.

Lemma handleWebhook_restarts_after_failed_pulls_witness :
  existsSync Example.disk (path Example.gone) = false /\
  exists st',
    handleWebhook Example.config_gone Example.body Example.st0
      = (Return
           {| res_repositories :=
                [{| out_name := Some (lit "gone"); out_success := false |}];
              res_services := [{| svc_success := true |}];
              res_success := false |}, st') /\
    world st' = Example.disk /\
    invoked st' = [restartCommand (lit "web")].
Proof.
  split; [reflexivity|].
  apply (@handleWebhook_restarts_after_failed_pulls Sim.host
           Example.config_gone [Example.gone] Example.body Example.st0
           Example.disk).
  - reflexivity.
  - repeat constructor.
  - vm_compute. reflexivity.
Defined.

Lemma hook_refresh_200_all_ran_witness :
  status (processed Example.results_ok) = 200 /\
  invoked (snd (hook_refresh Example.config_ok Example.unsigned_request
                  Example.st0))
  = [pull_command_of Example.app; restartCommand (lit "web");
     restartCommand (lit "db")].
Proof.
  split; [reflexivity|].
  apply (@hook_refresh_200_all_ran Sim.host Example.config_ok [Example.app]
           Example.unsigned_request Example.st0
           (processed Example.results_ok)
           (snd (hook_refresh Example.config_ok Example.unsigned_request
                   Example.st0))).
  - reflexivity.
  - apply pair_of_fst. vm_compute. reflexivity.
  - reflexivity.
Defined.

Lemma hook_refresh_refusal_witness :
  fst (hook_refresh Example.config
         (Example.request_with Example.wrong_signature) Example.st0)
  = Return unauthorized /\
  world (snd (hook_refresh Example.config
                (Example.request_with Example.wrong_signature) Example.st0))
  = Example.disk /\
  invoked (snd (hook_refresh Example.config
                  (Example.request_with Example.wrong_signature)
                  Example.st0))
  = [].
Proof.
  assert (E : fst (hook_refresh Example.config
                     (Example.request_with Example.wrong_signature)
                     Example.st0)
              = Return unauthorized) by (vm_compute; reflexivity).
  split; [exact E|].
  destruct (@hook_refresh_refusal Sim.host Example.config
              (Example.request_with Example.wrong_signature) Example.st0
              (Return unauthorized)
              (snd (hook_refresh Example.config
                      (Example.request_with Example.wrong_signature)
                      Example.st0))
              (pair_of_fst _ _ E) (or_introl eq_refl))
    as (Hw & Hi & _).
  split; [exact Hw | exact Hi].
Defined.

Lemma hook_refresh_without_secret_witness :
  secret Example.config_no_secret = [] /\
  JSON_stringify Example.body = Return (Some Example.payload) /\
  exists st1 ch st3 st',
    agree Example.st0 st1 /\
    handleWebhook Example.config_no_secret Example.body st1 = (ch, st3) /\
    agree st3 st' /\
    hook_refresh Example.config_no_secret
      (Example.request_with Example.short_signature) Example.st0
      = (Return match ch with
                | Return results => processed results
                | Throw e => internal_error e
                end, st').
Proof.
  split; [reflexivity|]. split; [reflexivity|].
  exact (@hook_refresh_without_secret Sim.host Example.config_no_secret
           (Example.request_with Example.short_signature) Example.payload
           Example.st0 eq_refl eq_refl).
Defined.

Lemma hook_refresh_without_truthy_signature_witness :
  truthy (x_hub_signature_256 (Example.request_with [])) = false /\
  JSON_stringify Example.body = Return (Some Example.payload) /\
  exists st1 ch st3 st',
    agree Example.st0 st1 /\
    handleWebhook Example.config Example.body st1 = (ch, st3) /\
    agree st3 st' /\
    hook_refresh Example.config (Example.request_with []) Example.st0
      = (Return match ch with
                | Return results => processed results
                | Throw e => internal_error e
                end, st').
Proof.
  split; [reflexivity|]. split; [reflexivity|].
  exact (@hook_refresh_without_truthy_signature Sim.host Example.config
           (Example.request_with []) Example.payload Example.st0
           eq_refl eq_refl).
Defined.

Lemma hook_refresh_signed_request_witness :
  exists st1 ch st3 st',
    agree Example.st0 st1 /\
    handleWebhook Example.config Example.body st1 = (ch, st3) /\
    agree st3 st' /\
    hook_refresh Example.config (Example.request_with Example.good_signature)
      Example.st0
      = (Return match ch with
                | Return results => processed results
                | Throw e => internal_error e
                end, st').
Proof.
  exact (@hook_refresh_signed_request Sim.host Example.config
           (Example.request_with Example.good_signature) Example.payload
           Example.st0 eq_refl eq_refl).
Defined.

Lemma hook_refresh_logLevel_irrelevant_witness :
  same_but_logLevel Example.config_ok Example.config_ok_debug /\
  fst (hook_refresh Example.config_ok Example.unsigned_request Example.st0)
  = fst (hook_refresh Example.config_ok_debug Example.unsigned_request
           Example.st0).
Proof.
  assert (H : same_but_logLevel Example.config_ok Example.config_ok_debug)
    by (repeat split; reflexivity).
  split; [exact H|].
  exact (proj1 (@hook_refresh_logLevel_irrelevant Sim.host Example.config_ok
                  Example.config_ok_debug Example.unsigned_request
                  Example.st0 H)).
Defined.

(** At the level [error] the processed request of [config_ok] writes
    nothing; at the level [debug] it writes its eleven lines. *)
Example hook_refresh_console_levels :
  console (snd (hook_refresh Example.config_ok Example.unsigned_request
                  Example.st0)) = [] /\
  length (console (snd (hook_refresh Example.config_ok_debug
                          Example.unsigned_request Example.st0))) = 11%nat.
Proof. split; vm_compute; reflexivity. Qed.

Lemma handleWebhook_null_entry_witness :
  exists st' P,
    handleWebhook (with_repositories Example.config [JObject Example.app; JNull])
      Example.body Example.st0
      = (Throw (TypeError (lit
           "Cannot destructure property 'name' of 'repoConfig' as it is null.")),
         st') /\
    invoked st' = invoked Example.st0 ++ P /\
    incl P (map pull_command_of [Example.app]) /\
    (length P <= 1)%nat.
Proof.
  exact (@handleWebhook_null_entry Sim.host
           (with_repositories Example.config [JObject Example.app; JNull])
           [Example.app] [] Example.body Example.st0 eq_refl).
Defined.
